(** * go-strftime: a shallow embedding of [strftime.go] and its properties

    The package renders a [strftime] template against a [time.Time].  It has
    two entry points, the one-shot [Format] and the compiled [Formatter]
    built by [NewFormatter]; both scan the template with regular expressions
    derived from the directive table [formats].

    Go strings are byte strings and are modelled by [string] (one [ascii] per
    byte).  Go's [int], [uint], [int64] are modelled by [Z]; the places where
    the source relies on a bounded width (byte subtraction, the saturation of
    [Time.Sub]) are written out.  A run-time panic is modelled by [None]. *)

From Stdlib Require Import ZArith Lia List Bool Ascii String.
From Stdlib Require Import Floats.PrimFloat Floats.SpecFloat Floats.FloatOps.
From Stdlib Require Import Numbers.Cyclic.Int63.Uint63.
From stdpp Require Import base option list strings gmap.
From Equations Require Import Equations.
From Equations.Prop Require Import Logic.

Local Open Scope string_scope.
Local Open Scope Z_scope.

(** ** Byte strings *)

Module GoString.

Fixpoint take (n : nat) (s : string) : string :=
  match n, s with
  | S k, String c r => String c (take k r)
  | _, _ => ""
  end.

Fixpoint drop (n : nat) (s : string) : string :=
  match n, s with
  | S k, String _ r => drop k r
  | _, _ => s
  end.

Fixpoint repeat (c : ascii) (n : nat) : string :=
  match n with
  | O => ""
  | S k => String c (repeat c k)
  end.

(** [s[i]] as a byte value; [None] is the index-out-of-range panic. *)
Definition index (s : string) (i : nat) : option Z :=
  match String.get i s with
  | Some c => Some (Z.of_N (N_of_ascii c))
  | None => None
  end.

Definition byte_of_Z (z : Z) : ascii := ascii_of_N (Z.to_N (z mod 256)).

Definition is_lower (c : ascii) : bool :=
  (("a" <=? c) && (c <=? "z"))%char.

End GoString.

(** ** Decimal rendering used by [fmt] and [time] *)

Module Decimal.

Definition digit (d : Z) : ascii := GoString.byte_of_Z (d + 48).

(** The decimal digits of [n >= 0], most significant first; [fuel] bounds
    the number of digits. *)
Fixpoint digits_go (fuel : nat) (n : Z) (acc : string) : string :=
  match fuel with
  | O => acc
  | S k =>
      let acc' := String (digit (n mod 10)) acc in
      if n / 10 =? 0 then acc' else digits_go k (n / 10) acc'
  end.

Definition digits (n : Z) : string :=
  digits_go (S (Z.to_nat (Z.log2 n))) n "".

Definition zero_pad (width : nat) (s : string) : string :=
  GoString.repeat "0" (width - String.length s) +:+ s.

End Decimal.

(** ** The fragment of package [fmt] for integers: ["%d"], ["%02d"], ["%03d"]

    With the [0] flag the sign is written first and the zeros fill the rest
    of the width. *)

Definition Sprintf_d (width : nat) (x : Z) : string :=
  if x <? 0
  then String "-" (Decimal.zero_pad (width - 1) (Decimal.digits (- x)))
  else Decimal.zero_pad width (Decimal.digits x).

(** ** Package [time]

    The part of Go's [time] package that [strftime.go] calls: instants,
    the calendar fields of an instant, [Date], [Add], [Sub], [Before],
    [Duration.Hours] and [Time.Format] for the layout elements the package
    passes to it. *)

Module time.

(** A location as one instant sees it: the abbreviation and the offset
    (seconds east of UTC) in force at that instant. *)
Record Location := { zoneName : string; zoneOffset : Z }.

Definition UTC : Location := {| zoneName := "UTC"; zoneOffset := 0 |}.

(** An instant, counted in nanoseconds since the Unix epoch, and the
    location it is presented in.  Go stores seconds and nanoseconds apart
    with [0 <= nsec < 1e9]; [unixNano / 1e9] and [unixNano mod 1e9] are
    those two fields. *)
Record Time := { unixNano : Z; loc : Location }.

Definition Duration := Z.

Definition Second : Duration := 1000000000.
Definition Minute : Duration := 60 * Second.
Definition Hour : Duration := 60 * Minute.

Definition minDuration : Duration := - 2 ^ 63.
Definition maxDuration : Duration := 2 ^ 63 - 1.

Definition January : Z := 1.
Definition July : Z := 7.
Definition November : Z := 11.

(** *** The proleptic Gregorian calendar *)

Definition daysFromCivil (y m d : Z) : Z :=
  let y' := if m <=? 2 then y - 1 else y in
  let era := y' / 400 in
  let yoe := y' - era * 400 in
  let mp := if m >? 2 then m - 3 else m + 9 in
  let doy := (153 * mp + 2) / 5 + d - 1 in
  let doe := yoe * 365 + yoe / 4 - yoe / 100 + doy in
  era * 146097 + doe - 719468.

Definition civilFromDays (z : Z) : Z * Z * Z :=
  let z' := z + 719468 in
  let era := z' / 146097 in
  let doe := z' - era * 146097 in
  let yoe := (doe - doe / 1460 + doe / 36524 - doe / 146096) / 365 in
  let doy := doe - (365 * yoe + yoe / 4 - yoe / 100) in
  let mp := (5 * doy + 2) / 153 in
  let d := doy - (153 * mp + 2) / 5 + 1 in
  let m := if mp <? 10 then mp + 3 else mp - 9 in
  let y := yoe + era * 400 in
  (if m <=? 2 then y + 1 else y, m, d).

(** [time.Date]: out-of-range months are normalised into the year; days,
    hours, minutes and seconds overflow linearly. *)
Definition Date (year month day hour min sec nsec : Z) (l : Location) : Time :=
  let m0 := month - 1 in
  let y := year + m0 / 12 in
  let m := m0 mod 12 + 1 in
  let days := daysFromCivil y m 1 + (day - 1) in
  let unix := days * 86400 + hour * 3600 + min * 60 + sec - zoneOffset l in
  {| unixNano := unix * Second + nsec; loc := l |}.

(** Seconds of the local wall clock since the epoch. *)
Definition localSec (t : Time) : Z :=
  unixNano t / Second + zoneOffset (loc t).

Definition Time_Year (t : Time) : Z := (civilFromDays (localSec t / 86400)).1.1.
Definition Time_Month (t : Time) : Z := (civilFromDays (localSec t / 86400)).1.2.
Definition Time_Day (t : Time) : Z := (civilFromDays (localSec t / 86400)).2.
Definition Time_Hour (t : Time) : Z := localSec t mod 86400 / 3600.
Definition Time_Minute (t : Time) : Z := localSec t mod 3600 / 60.
Definition Time_Second (t : Time) : Z := localSec t mod 60.
Definition Time_Nanosecond (t : Time) : Z := unixNano t mod Second.

(** Sunday is 0; 1 January 1970 was a Thursday. *)
Definition Time_Weekday (t : Time) : Z := (localSec t / 86400 + 4) mod 7.

Definition Time_Before (t u : Time) : bool := unixNano t <? unixNano u.

Definition Time_Add (t : Time) (d : Duration) : Time :=
  {| unixNano := unixNano t + d; loc := loc t |}.

(** [t.Sub(u)] saturates at the ends of [Duration]. *)
Definition Time_Sub (t u : Time) : Duration :=
  let d := unixNano t - unixNano u in
  if d <? minDuration then minDuration
  else if d >? maxDuration then maxDuration
  else d.

(** *** [Duration.Hours] in IEEE 754 binary64

    <<
    hour := d / Hour; nsec := d % Hour
    return float64(hour) + float64(nsec)/(60*60*1e9)
    >>
    Go's [/] and [%] on integers truncate towards zero ([Z.quot], [Z.rem]);
    the conversions of these two integers to [float64] are exact. *)

Definition float64_of_int (z : Z) : float :=
  if z <? 0 then (- of_uint63 (Uint63.of_Z (- z)))%float
  else of_uint63 (Uint63.of_Z z).

Definition Duration_Hours (d : Duration) : float :=
  (float64_of_int (Z.quot d Hour)
   + float64_of_int (Z.rem d Hour) / float64_of_int 3600000000000)%float.

(** The conversion [int(f)] of a finite [float64]: the fraction is
    discarded (truncation towards zero). *)
Definition int_of_float64 (f : float) : Z :=
  match Prim2SF f with
  | S754_finite s m e =>
      let v := if 0 <=? e then Z.pos m * 2 ^ e else Z.pos m / 2 ^ (- e) in
      if s then - v else v
  | _ => 0
  end.

(** *** [Time.Format]

    The layout is scanned left to right for the reference-time elements
    ([nextStdChunk]); everything else is copied.  The elements modelled are
    those that can occur in the layouts of this package: the names, the
    numbers [01]..[06], [1], [15], [2], [2006], [3], [4], [5], [PM], [pm] and
    [MST].  Numeric zones, fractional seconds, [_2] and [002] are not
    modelled. *)

Inductive std :=
| stdLongMonth | stdMonth | stdNumMonth | stdZeroMonth
| stdLongWeekDay | stdWeekDay | stdDay | stdZeroDay
| stdHour | stdHour12 | stdZeroHour12
| stdMinute | stdZeroMinute | stdSecond | stdZeroSecond
| stdLongYear | stdYear | stdPM | stdpm | stdTZ.

Definition startsWithLowerCase (s : string) : bool :=
  match s with
  | String c _ => GoString.is_lower c
  | "" => false
  end.

(** The element that starts [layout], with its length in bytes. *)
Definition stdChunkAt (layout : string) : option (std * nat) :=
  match layout with
  | String "J" _ =>
      if String.prefix "Jan" layout then
        if String.prefix "January" layout then Some (stdLongMonth, 7%nat)
        else if startsWithLowerCase (GoString.drop 3 layout) then None
        else Some (stdMonth, 3%nat)
      else None
  | String "M" _ =>
      if String.prefix "Monday" layout then Some (stdLongWeekDay, 6%nat)
      else if String.prefix "Mon" layout
              && negb (startsWithLowerCase (GoString.drop 3 layout))
      then Some (stdWeekDay, 3%nat)
      else if String.prefix "MST" layout then Some (stdTZ, 3%nat)
      else None
  | String "0" (String "1" _) => Some (stdZeroMonth, 2%nat)
  | String "0" (String "2" _) => Some (stdZeroDay, 2%nat)
  | String "0" (String "3" _) => Some (stdZeroHour12, 2%nat)
  | String "0" (String "4" _) => Some (stdZeroMinute, 2%nat)
  | String "0" (String "5" _) => Some (stdZeroSecond, 2%nat)
  | String "0" (String "6" _) => Some (stdYear, 2%nat)
  | String "1" _ =>
      if String.prefix "15" layout then Some (stdHour, 2%nat)
      else Some (stdNumMonth, 1%nat)
  | String "2" _ =>
      if String.prefix "2006" layout then Some (stdLongYear, 4%nat)
      else Some (stdDay, 1%nat)
  | String "3" _ => Some (stdHour12, 1%nat)
  | String "4" _ => Some (stdMinute, 1%nat)
  | String "5" _ => Some (stdSecond, 1%nat)
  | String "P" (String "M" _) => Some (stdPM, 2%nat)
  | String "p" (String "m" _) => Some (stdpm, 2%nat)
  | _ => None
  end.

Definition longDayNames : list string :=
  ["Sunday"; "Monday"; "Tuesday"; "Wednesday"; "Thursday"; "Friday";
   "Saturday"].

Definition longMonthNames : list string :=
  ["January"; "February"; "March"; "April"; "May"; "June"; "July"; "August";
   "September"; "October"; "November"; "December"].

Definition Weekday_String (d : Z) : string :=
  nth (Z.to_nat d) longDayNames "".

Definition Month_String (m : Z) : string :=
  nth (Z.to_nat (m - 1)) longMonthNames "".

(** [appendInt]: the decimal digits of [x], zero-padded to [width], after
    the sign. *)
Definition appendInt (x : Z) (width : nat) : string :=
  if x <? 0
  then String "-" (Decimal.zero_pad width (Decimal.digits (- x)))
  else Decimal.zero_pad width (Decimal.digits x).

(** The element [MST]: the zone abbreviation, or, when the instant has
    none, the offset in the form [-0700]:
    <<
    zone := offset / 60
    if zone < 0 { b = append(b, '-'); zone = -zone } else { b = append(b, '+') }
    b = appendInt(b, zone/60, 2)
    b = appendInt(b, zone%60, 2)
    >> *)
Definition formatTZ (l : Location) : string :=
  if String.eqb (zoneName l) "" then
    let zone := Z.quot (zoneOffset l) 60 in
    let sign := if zone <? 0 then "-" else "+" in
    let zone' := if zone <? 0 then - zone else zone in
    sign +:+ appendInt (Z.quot zone' 60) 2
         +:+ appendInt (Z.rem zone' 60) 2
  else zoneName l.

Definition formatStd (s : std) (t : Time) : string :=
  match s with
  | stdYear => appendInt (Z.rem (Z.abs (Time_Year t)) 100) 2
  | stdLongYear => appendInt (Time_Year t) 4
  | stdMonth => GoString.take 3 (Month_String (Time_Month t))
  | stdLongMonth => Month_String (Time_Month t)
  | stdNumMonth => appendInt (Time_Month t) 0
  | stdZeroMonth => appendInt (Time_Month t) 2
  | stdWeekDay => GoString.take 3 (Weekday_String (Time_Weekday t))
  | stdLongWeekDay => Weekday_String (Time_Weekday t)
  | stdDay => appendInt (Time_Day t) 0
  | stdZeroDay => appendInt (Time_Day t) 2
  | stdHour => appendInt (Time_Hour t) 2
  | stdHour12 =>
      let hr := Time_Hour t mod 12 in
      appendInt (if hr =? 0 then 12 else hr) 0
  | stdZeroHour12 =>
      let hr := Time_Hour t mod 12 in
      appendInt (if hr =? 0 then 12 else hr) 2
  | stdMinute => appendInt (Time_Minute t) 0
  | stdZeroMinute => appendInt (Time_Minute t) 2
  | stdSecond => appendInt (Time_Second t) 0
  | stdZeroSecond => appendInt (Time_Second t) 2
  | stdPM => if Time_Hour t >=? 12 then "PM" else "AM"
  | stdpm => if Time_Hour t >=? 12 then "pm" else "am"
  | stdTZ => formatTZ (loc t)
  end.

(** The scan of the layout; [skip] counts the bytes of the element just
    rendered that are still to be passed over. *)
Fixpoint format_go (t : Time) (skip : nat) (layout : string) : string :=
  match layout with
  | "" => ""
  | String c rest =>
      match skip with
      | S k => format_go t k rest
      | O =>
          match stdChunkAt layout with
          | Some (s, len) => formatStd s t +:+ format_go t (len - 1) rest
          | None => String c (format_go t 0 rest)
          end
      end
  end.

Definition Time_Format (t : Time) (layout : string) : string :=
  format_go t 0 layout.

Definition RFC1123 : string := "Mon, 02 Jan 2006 15:04:05 MST".

End time.

(** ** Package [regexp]

    The two expressions of this package use literals, character classes,
    concatenation and alternation.  Matching is leftmost-first: at a
    position the alternatives are tried in order, and the scan resumes after
    the match.

    A negated class matches one rune, which may span several bytes; the model
    lets it take the first byte only.  For this package the two agree: the
    only callback applied to such a match puts a [%] in front of it, and the
    remaining bytes of the rune (all above 127) are copied either way. *)

Module regexp.

Inductive Regexp :=
| Lit (c : ascii)
| Class (neg : bool) (chars : list ascii) (ranges : list (ascii * ascii))
| Cat (r1 r2 : Regexp)
| Alt (r1 r2 : Regexp).

Definition inClass (chars : list ascii) (ranges : list (ascii * ascii))
    (c : ascii) : bool :=
  existsb (Ascii.eqb c) chars
  || existsb (fun r => (r.1 <=? c)%char && (c <=? r.2)%char) ranges.

(** The lengths of the matches of [r] at the start of [s], preferred first. *)
Fixpoint matchLens (r : Regexp) (s : string) : list nat :=
  match r with
  | Lit c =>
      match s with
      | String c' _ => if Ascii.eqb c c' then [1%nat] else []
      | "" => []
      end
  | Class neg chars ranges =>
      match s with
      | String c' _ => if xorb neg (inClass chars ranges c') then [1%nat] else []
      | "" => []
      end
  | Cat r1 r2 =>
      n1 ← matchLens r1 s;
      Nat.add n1 <$> matchLens r2 (GoString.drop n1 s)
  | Alt r1 r2 => (matchLens r1 s ++ matchLens r2 s)%list
  end.

Definition matchAt (r : Regexp) (s : string) : option nat :=
  head (matchLens r s).

(** [QuoteMeta] puts a backslash before each metacharacter. *)
Definition special (c : ascii) : bool :=
  existsb (Ascii.eqb c)
    (list_ascii_of_string "\.+*?()|[]{}^$").

Fixpoint QuoteMeta (s : string) : string :=
  match s with
  | "" => ""
  | String c r =>
      if special c then String "\" (String c (QuoteMeta r))
      else String c (QuoteMeta r)
  end.

(** The members that a piece of text contributes to a character class: a
    backslash makes the next byte stand for itself. *)
Fixpoint classItems (s : string) : list ascii :=
  match s with
  | "" => []
  | String "\" (String c r) => c :: classItems r
  | String c r => c :: classItems r
  end.

(** [ReplaceAllStringFunc]: the matches are found left to right without
    overlap and each is replaced by what [repl] returns for it; the text
    between matches is copied.  The callbacks of this package are closures
    that may update captured variables and may panic, so [repl] threads a
    state [St] and returns [None] on a panic.  [skip] counts the bytes of
    the last match that are still to be passed over.  Neither expression of
    this package has an empty match. *)
Section ReplaceAll.
Context {St : Type}.
Variable re : Regexp.
Variable repl : string → St → option (string * St).

Fixpoint replaceAll_go (skip : nat) (src : string) (st : St)
    : option (string * St) :=
  match src with
  | "" => Some ("", st)
  | String c rest =>
      match skip with
      | S k => replaceAll_go k rest st
      | O =>
          match matchAt re src with
          | Some (S k) =>
              match repl (GoString.take (S k) src) st with
              | Some (out, st') =>
                  match replaceAll_go k rest st' with
                  | Some (outs, st'') => Some (out +:+ outs, st'')
                  | None => None
                  end
              | None => None
              end
          | _ =>
              match replaceAll_go 0 rest st with
              | Some (outs, st') => Some (String c outs, st')
              | None => None
              end
          end
      end
  end.

End ReplaceAll.

Definition ReplaceAllStringFunc {St : Type} (re : Regexp) (src : string)
    (repl : string → St → option (string * St)) (st : St)
    : option (string * St) :=
  replaceAll_go re repl 0 src st.

End regexp.

(** ** Package [fmt]: [Sprintf] with string operands

    The verbs [%%], [%s] and [%v] without flags, width or precision, and the
    error texts that [doPrintf] writes for a format that ends inside a verb
    ([%!(NOVERB)]), for a verb with no operand left ([%!x(MISSING)]) and for
    operands left over ([%!(EXTRA ...)]).  Flags and a decimal width of at
    most six digits are parsed; a verb that would have to apply them,
    explicit argument indexes, [*], a precision, and the other verbs are
    outside the model. *)

Module fmt.

Inductive modelled (A : Type) :=
| Known (a : A)
| Unmodelled.
Arguments Known {A} a.
Arguments Unmodelled {A}.

Definition isFlag (c : ascii) : bool :=
  existsb (Ascii.eqb c) (list_ascii_of_string "#0+- ").

Definition isDigit (c : ascii) : bool := (("0" <=? c) && (c <=? "9"))%char.

Fixpoint countWhile (p : ascii → bool) (s : string) : nat :=
  match s with
  | String c r => if p c then S (countWhile p r) else O
  | "" => O
  end.

(** The verb that starts at [s] (whose first byte is the [%]): what it
    writes, how many bytes of the format it takes, and the operands left. *)
Definition verbAt (s : string) (args : list string)
    : modelled (string * nat * list string) :=
  let s1 := GoString.drop 1 s in
  let nflags := countWhile isFlag s1 in
  let s2 := GoString.drop nflags s1 in
  let nwid := countWhile isDigit s2 in
  let s3 := GoString.drop nwid s2 in
  let plain := (nflags + nwid =? 0)%nat in
  let len := (1 + nflags + nwid + 1)%nat in
  if (6 <? nwid)%nat then Unmodelled else
  match s3 with
  | "" => Known ("%!(NOVERB)", (1 + nflags + nwid)%nat, args)
  | String verb _ =>
      if existsb (Ascii.eqb verb) (list_ascii_of_string "[*.") then Unmodelled
      else if ("127" <? verb)%char then Unmodelled
      else if Ascii.eqb verb "%" then
        if plain then Known ("%", len, args) else Unmodelled
      else
        match args with
        | [] => Known ("%!" +:+ String verb "(MISSING)", len, args)
        | a :: args' =>
            if plain && (Ascii.eqb verb "s" || Ascii.eqb verb "v")
            then Known (a, len, args')
            else Unmodelled
        end
  end.

(** The operands left at the end of the format. *)
Fixpoint extraArgs (args : list string) : string :=
  match args with
  | [] => ""
  | [a] => "string=" +:+ a
  | a :: rest => "string=" +:+ a +:+ ", " +:+ extraArgs rest
  end.

Fixpoint doPrintf (skip : nat) (format : string) (args : list string)
    : modelled string :=
  match format with
  | "" =>
      match args with
      | [] => Known ""
      | _ => Known ("%!(EXTRA " +:+ extraArgs args +:+ ")")
      end
  | String c rest =>
      match skip with
      | S k => doPrintf k rest args
      | O =>
          if Ascii.eqb c "%" then
            match verbAt format args with
            | Known (out, len, args') =>
                match doPrintf (len - 1) rest args' with
                | Known outs => Known (out +:+ outs)
                | Unmodelled => Unmodelled
                end
            | Unmodelled => Unmodelled
            end
          else
            match doPrintf 0 rest args with
            | Known outs => Known (String c outs)
            | Unmodelled => Unmodelled
            end
      end
  end.

Definition Sprintf (format : string) (args : list string) : modelled string :=
  doPrintf 0 format args.

(** The offset of the verb of the directive that starts at [s], behind the
    flags and the width. *)
Definition verbIndex (s : string) : nat :=
  let s1 := GoString.drop 1 s in
  let nflags := countWhile isFlag s1 in
  let nwid := countWhile isDigit (GoString.drop nflags s1) in
  (1 + nflags + nwid)%nat.

(** How many times the scan of [doPrintf] over [format] meets the verb
    [v]. *)
Fixpoint countVerb (v : ascii) (skip : nat) (format : string) : nat :=
  match format with
  | "" => O
  | String c rest =>
      match skip with
      | S k => countVerb v k rest
      | O =>
          if Ascii.eqb c "%" then
            match String.get (verbIndex format) format with
            | Some v' =>
                ((if Ascii.eqb v' v then 1 else 0)
                 + countVerb v (verbIndex format) rest)%nat
            | None => O
            end
          else countVerb v 0 rest
      end
  end.

End fmt.

(** ** Package [io]: a sink *)

Module io.

Definition error := string.

(** [Write] returns the sink after the call, the number of bytes it took
    and its error. *)
Class Writer (W : Type) := Write : W → string → W * (Z * option error).

End io.

(** ** Package [strftime] *)

Import time regexp.

Definition WEEK : Duration := Hour * 24 * 7.

(** A [FormatFunc] that panics returns [None]. *)
Abbreviation FormatFunc := (Time → option string).

(** The loop of [weekNumberFormatter]:
    <<
    for start.Before(t) { week += 1; start = start.Add(WEEK) }
    >>
    The number of rounds still to go decreases. *)
Equations? weekLoop (t start : Time) (week : Z) : Z
  by wf (Z.to_nat ((unixNano t - unixNano start + WEEK - 1) / WEEK)) lt :=
  weekLoop t start week with inspect (Time_Before start t) := {
    | exist _ true Hb => weekLoop t (Time_Add start WEEK) (week + 1);
    | exist _ false _ => week }.
Proof.
  unfold Time_Before in Hb. apply Z.ltb_lt in Hb. simpl.
  replace (unixNano t - (unixNano start + WEEK) + WEEK - 1)
    with (unixNano t - unixNano start + WEEK - 1 + (-1) * WEEK) by ring.
  rewrite Z.div_add by (unfold WEEK, Hour, Minute, Second; lia).
  assert (1 <= (unixNano t - unixNano start + WEEK - 1) / WEEK).
  { apply Z.div_le_lower_bound; unfold WEEK, Hour, Minute, Second in *; lia. }
  lia.
Qed.

Definition weekNumberFormatter (t : Time) : string :=
  let start := Date (Time_Year t) January 1 23 0 0 0 UTC in
  let week := weekLoop t start 0 in
  Sprintf_d 2 week.

Definition formats : gmap string FormatFunc :=
  list_to_map
    [ ("%a", λ t, Some (Time_Format t "Mon"));
      ("%A", λ t, Some (Time_Format t "Monday"));
      ("%b", λ t, Some (Time_Format t "Jan"));
      ("%B", λ t, Some (Time_Format t "January"));
      ("%c", λ t, Some (Time_Format t RFC1123));
      ("%d", λ t, Some (Time_Format t "02"));
      ("%H", λ t, Some (Time_Format t "15"));
      ("%I", λ t, Some (Time_Format t "3"));
      ("%j", λ t,
         let start := Date (Time_Year t) January 1 0 0 0 0 UTC in
         let day :=
           int_of_float64
             (Duration_Hours (Time_Sub t start) / float64_of_int 24)%float
           + 1 in
         Some (Sprintf_d 3 day));
      ("%m", λ t, Some (Time_Format t "01"));
      ("%M", λ t, Some (Time_Format t "04"));
      ("%p", λ t, Some (Time_Format t "PM"));
      ("%S", λ t, Some (Time_Format t "05"));
      ("%U", λ t, Some (weekNumberFormatter t));
      ("%W", λ t, Some (weekNumberFormatter t));
      ("%w", λ t, Some (Sprintf_d 0 (Time_Weekday t)));
      ("%x", λ t, Some (Time_Format t "01/02/06"));
      ("%X", λ t, Some (Time_Format t "15:04:05"));
      ("%y", λ t, Some (Time_Format t "06"));
      ("%Y", λ t, Some (Time_Format t "2006"));
      ("%Z", λ t, Some (Time_Format t "MST")) ].

(** The bytes that the keys of [formats] put into the character classes:
    [QuoteMeta(format[1:])] for each key, in the order of the iteration. *)
Definition formatsClass : list ascii :=
  k ← (map_to_list formats).*1;
  classItems (QuoteMeta (GoString.drop 1 k)).

(** ["%([%" ++ keys ++ "]|[1-9]n)"] *)
Definition initFormatRegexp : Regexp :=
  Cat (Lit "%")
      (Alt (Class false ("%"%char :: formatsClass) [])
           (Cat (Class false [] [("1"%char, "9"%char)]) (Lit "n"))).

(** ["%([^" ++ keys ++ "1-9]|[1-9][^n])"] *)
Definition initFormatBackquoteRegexp : Regexp :=
  Cat (Lit "%")
      (Alt (Class true formatsClass [("1"%char, "9"%char)])
           (Cat (Class false [] [("1"%char, "9"%char)])
                (Class true ["n"%char] []))).

Definition fmtRe : Regexp := initFormatRegexp.
Definition fmtBackquoteRe : Regexp := initFormatBackquoteRegexp.

(** The first loop of [formatNano]: the nine low decimal digits of [u] are
    stored from [buf[8]] down to [buf[0]]. *)
Fixpoint formatNano_fill (start : nat) (u : Z) (buf : list ascii) : list ascii :=
  match start with
  | O => buf
  | S start' =>
      formatNano_fill start' (u / 10)
        (<[start' := GoString.byte_of_Z (u mod 10 + 48)]> buf)
  end.

(** [for n > 0 && buf[n-1] == '0' { n-- }] *)
Fixpoint formatNano_trim (n : nat) (buf : list ascii) : nat :=
  match n with
  | O => O
  | S n' =>
      match buf !! n' with
      | Some c => if Ascii.eqb c "0" then formatNano_trim n' buf else n
      | None => n
      end
  end.

(** [formatNano(nanosec uint, n int, trim bool) []byte]; slicing with a
    negative [n] panics. *)
Definition formatNano (nanosec : Z) (n : Z) (trim : bool) : option (list ascii) :=
  let buf := formatNano_fill 9 nanosec (replicate 9 "000"%char) in
  let n := if n >? 9 then 9 else n in
  if n <? 0 then None
  else
    let n := if trim then formatNano_trim (Z.to_nat n) buf else Z.to_nat n in
    Some (take n buf).

(** [match[1] - '0'] is a subtraction of bytes and wraps modulo 256. *)
Definition formatNanoForMatch (match_ : string) (t : Time) : option string :=
  match GoString.index match_ 1 with
  | None => None
  | Some b =>
      let size := (b - 48) mod 256 in
      match formatNano (Time_Nanosecond t mod 2 ^ 64) size false with
      | Some bytes => Some (string_of_list_ascii bytes)
      | None => None
      end
  end.

Definition repl (match_ : string) (t : Time) : option string :=
  if String.eqb match_ "%%" then Some "%"
  else
    match formats !! match_ with
    | Some formatFunc => formatFunc t
    | None => formatNanoForMatch match_ t
    end.

Definition Format (format : string) (t : Time) : option string :=
  let fn := λ (match_ : string) (_ : unit),
    match repl match_ t with
    | Some out => Some (out, tt)
    | None => None
    end in
  fst <$> ReplaceAllStringFunc fmtRe format fn tt.

Definition FormatTo `{io.Writer W} (w : W) (format : string) (t : Time)
    : option (W * (Z * option io.error)) :=
  match Format format t with
  | Some result => Some (io.Write w result)
  | None => None
  end.

Record Formatter := {
  format : string;
  strFormat : string;
  formatFunc : Time → option (list string)
}.

(** The three scans of [NewFormatter], with the variables [size] and [funs]
    that the closures [f1] and [f2] update. *)
Definition NewFormatter_scan (format : string)
    : option (string * Z * list FormatFunc) :=
  let f := λ (match_ : string) (_ : unit),
    if String.eqb match_ "%%" then Some (match_, tt)
    else Some ("%" +:+ match_, tt) in
  match ReplaceAllStringFunc fmtBackquoteRe format f tt with
  | None => None
  | Some (strFormat, _) =>
      let f1 := λ (match_ : string) (size : Z),
        if String.eqb match_ "%%" then Some (match_, size)
        else Some ("%s", size + 1) in
      match ReplaceAllStringFunc fmtRe strFormat f1 0 with
      | None => None
      | Some (strFormat, size) =>
          let f2 := λ (match_ : string) (funs : list FormatFunc),
            if String.eqb match_ "%%" then Some (match_, funs)
            else
              match formats !! match_ with
              | Some f => Some (match_, (funs ++ [f])%list)
              | None =>
                  let f := λ t, formatNanoForMatch match_ t in
                  Some (match_, (funs ++ [f])%list)
              end in
          match ReplaceAllStringFunc fmtRe format f2 [] with
          | None => None
          | Some (_, funs) => Some (strFormat, size, funs)
          end
      end
  end.

(** [for _, f := range funs { result = append(result, f(t)) }] *)
Fixpoint applyFuns (funs : list FormatFunc) (t : Time) : option (list string) :=
  match funs with
  | [] => Some []
  | f :: rest =>
      match f t with
      | Some v =>
          match applyFuns rest t with
          | Some vs => Some (v :: vs)
          | None => None
          end
      | None => None
      end
  end.

Definition NewFormatter (format : string) : option Formatter :=
  match NewFormatter_scan format with
  | Some (strFormat, _, funs) =>
      Some {| format := format;
              strFormat := strFormat;
              formatFunc := applyFuns funs |}
  | None => None
  end.

Definition Formatter_Format (self : Formatter) (t : Time)
    : option (fmt.modelled string) :=
  match formatFunc self t with
  | Some args => Some (fmt.Sprintf (strFormat self) args)
  | None => None
  end.

(** [Fprintf] formats into a buffer and hands it to the sink in one
    [Write]. *)
Definition Formatter_FormatTo `{io.Writer W} (self : Formatter) (w : W)
    (t : Time) : option (fmt.modelled (W * (Z * option io.error))) :=
  match formatFunc self t with
  | Some args =>
      match fmt.Sprintf (strFormat self) args with
      | fmt.Known out => Some (fmt.Known (io.Write w out))
      | fmt.Unmodelled => Some fmt.Unmodelled
      end
  | None => None
  end.

(** [NewFormatter(format).Format(t)] *)
Definition compiledFormat (format : string) (t : Time)
    : option (fmt.modelled string) :=
  match NewFormatter format with
  | Some self => Formatter_Format self t
  | None => None
  end.

(** The placeholders of a skeleton: its [%s] verbs. *)
Definition placeholders (strFormat : string) : nat :=
  fmt.countVerb "s" 0 strFormat.

Definition testTime : Time := Date 2009 November 10 23 1 2 3 UTC.

(** ** strftime.go: the version with a table of layouts and a switch

    [WEEK], [formatNano] and the loop that counts the weeks are the same
    text in both versions. *)

Module strftime_go.

(** [conv]: the directives that [time.Format] renders with a layout. *)
Definition conv : gmap string string :=
  list_to_map
    [ ("%a", "Mon");
      ("%A", "Monday");
      ("%b", "Jan");
      ("%B", "January");
      ("%c", RFC1123);
      ("%d", "02");
      ("%H", "15");
      ("%I", "3");
      ("%m", "01");
      ("%M", "04");
      ("%p", "PM");
      ("%S", "05");
      ("%x", "01/02/06");
      ("%X", "15:04:05");
      ("%y", "06");
      ("%Y", "2006");
      ("%Z", "MST") ].

(** ["%([%aAbBcdHIjmMpSUwWxXyYZ]|[1-9]n)"] *)
Definition fmtRe : Regexp :=
  Cat (Lit "%")
      (Alt (Class false (list_ascii_of_string "%aAbBcdHIjmMpSUwWxXyYZ") [])
           (Cat (Class false [] [("1"%char, "9"%char)]) (Lit "n"))).

(** [repl(match string, t time.Time) string]; indexing [match[1]] out of
    range panics. *)
Definition repl (match_ : string) (t : Time) : option string :=
  if String.eqb match_ "%%" then Some "%"
  else
    match conv !! match_ with
    | Some format => Some (Time_Format t format)
    | None =>
        if String.eqb match_ "%j" then
          let start := Date (Time_Year t) January 1 0 0 0 0 UTC in
          let day :=
            int_of_float64
              (Duration_Hours (Time_Sub t start) / float64_of_int 24)%float
            + 1 in
          Some (Sprintf_d 3 day)
        else if String.eqb match_ "%w" then
          Some (Sprintf_d 0 (Time_Weekday t))
        else if String.eqb match_ "%W" || String.eqb match_ "%U" then
          let start := Date (Time_Year t) January 1 23 0 0 0 UTC in
          let week := weekLoop t start 0 in
          Some (Sprintf_d 2 week)
        else
          match GoString.index match_ 1 with
          | None => None
          | Some b =>
              let size := (b - 48) mod 256 in
              match formatNano (Time_Nanosecond t mod 2 ^ 64) size false with
              | Some bytes => Some (string_of_list_ascii bytes)
              | None => None
              end
          end
    end.

Definition Format (format : string) (t : Time) : option string :=
  let fn := λ (match_ : string) (_ : unit),
    match repl match_ t with
    | Some out => Some (out, tt)
    | None => None
    end in
  fst <$> ReplaceAllStringFunc fmtRe format fn tt.

End strftime_go.

(** ** Definitions that the properties are stated with *)

(** The bytes that stand for a directive in [formats]. *)
Definition isTable (c : ascii) : bool := inClass formatsClass [] c.

(** The bytes [1] to [9]. *)
Definition is19 (c : ascii) : bool := (("1" <=? c) && (c <=? "9"))%char.

(** What [fmtRe] matches at the head of a string: [%%] or [%] and a
    directive byte (two bytes), or [%], a digit 1-9 and [n] (three). *)
Definition fmtRe_len (s : string) : option nat :=
  match s with
  | String p (String c r) =>
      if Ascii.eqb p "%" then
        if Ascii.eqb c "%" || isTable c then Some 2%nat
        else if is19 c then
          match r with
          | String x _ => if Ascii.eqb x "n" then Some 3%nat else None
          | "" => None
          end
        else None
      else None
  | _ => None
  end.

(** What [fmtBackquoteRe] matches: [%] and a byte that is neither a
    directive byte nor a digit 1-9, or [%], a digit 1-9 and a byte other
    than [n]. *)
Definition fmtBackquoteRe_len (s : string) : option nat :=
  match s with
  | String p (String c r) =>
      if Ascii.eqb p "%" then
        if negb (isTable c || is19 c) then Some 2%nat
        else if is19 c then
          match r with
          | String x _ => if Ascii.eqb x "n" then None else Some 3%nat
          | "" => None
          end
        else None
      else None
  | _ => None
  end.

(** A template that ends on a [%] that no match of [fmtRe] has taken. *)
Fixpoint pendingPercent_go (skip : nat) (s : string) : bool :=
  match s with
  | "" => false
  | String c rest =>
      match skip with
      | S k => pendingPercent_go k rest
      | O =>
          match matchAt fmtRe s with
          | Some (S k) => pendingPercent_go k rest
          | _ =>
              match rest with
              | "" => Ascii.eqb c "%"
              | _ => pendingPercent_go 0 rest
              end
          end
      end
  end.

Definition pendingPercent (s : string) : bool := pendingPercent_go 0 s.

(** The closure [fn] of [Format]. *)
Definition Format_fn (t : Time) (match_ : string) (_ : unit)
    : option (string * unit) :=
  match repl match_ t with
  | Some out => Some (out, tt)
  | None => None
  end.

(** Where the loop of [weekNumberFormatter] starts: 1 January 23:00:00 UTC
    of the year of [t]. *)
Definition weekStart (t : Time) : Time :=
  Date (Time_Year t) January 1 23 0 0 0 UTC.

(** The accumulator of [weekNumberFormatter] after [i] additions. *)
Definition weekAcc (start : Time) (i : nat) : Time :=
  Nat.iter i (λ s, Time_Add s WEEK) start.

(** The number of whole 24-hour periods between midnight of 1 January (UTC)
    of the year of [t] and [t], plus one. *)
Definition wholeDaysPlusOne (t : Time) : Z :=
  Z.quot (unixNano t - unixNano (Date (Time_Year t) January 1 0 0 0 0 UTC))
         (24 * Hour) + 1.

(** One nanosecond before midnight at the end of 1 July 2009. *)
Definition lastNanoOfJuly1 : Time := Date 2009 July 1 23 59 59 999999999 UTC.

(** The nine decimal digits of [ns], most significant first. *)
Definition nanoDigits (ns : Z) : string :=
  string_of_list_ascii
    ((λ e, Decimal.digit ((ns / 10 ^ e) mod 10)) <$> [8; 7; 6; 5; 4; 3; 2; 1; 0]).

(** The number that a string of decimal digits denotes. *)
Fixpoint decimalValue_go (acc : Z) (s : string) : Z :=
  match s with
  | "" => acc
  | String c r => decimalValue_go (acc * 10 + (Z.of_N (N_of_ascii c) - 48)) r
  end.

Definition decimalValue (s : string) : Z := decimalValue_go 0 s.

(** The bytes [0] to [9], and the strings made of them. *)
Definition isDecimalDigit (c : ascii) : bool :=
  (("0" <=? c) && (c <=? "9"))%char.

Definition allDigits (s : string) : bool :=
  forallb isDecimalDigit (list_ascii_of_string s).

(** The first scan of [NewFormatter]: a [%] is put before every match of
    [fmtBackquoteRe] other than [%%]. *)
Fixpoint escape (s : string) : string :=
  match s with
  | "" => ""
  | String p rest =>
      if negb (Ascii.eqb p "%") then String p (escape rest)
      else
        match rest with
        | "" => "%"
        | String c r =>
            if Ascii.eqb c "%" then "%%" +:+ escape r
            else if isTable c then String "%" (String c (escape r))
            else if is19 c then
              match r with
              | "" => String "%" (String c "")
              | String x r' =>
                  if Ascii.eqb x "n"
                  then String "%" (String c (String "n" (escape r')))
                  else String "%" (String "%" (String c (String x (escape r'))))
              end
            else String "%" (String "%" (String c (escape r)))
        end
  end.

(** The matches of [fmtRe] other than [%%], from left to right. *)
Fixpoint directives (s : string) : list string :=
  match s with
  | "" => []
  | String p rest =>
      if negb (Ascii.eqb p "%") then directives rest
      else
        match rest with
        | "" => []
        | String c r =>
            if Ascii.eqb c "%" then directives r
            else if isTable c then String "%" (String c "") :: directives r
            else if is19 c then
              match r with
              | "" => []
              | String x r' =>
                  if Ascii.eqb x "n"
                  then String "%" (String c "n") :: directives r'
                  else directives r
              end
            else directives r
        end
  end.

(** The second scan of [NewFormatter]: every match of [fmtRe] other than
    [%%] becomes [%s]. *)
Fixpoint skeleton (s : string) : string :=
  match s with
  | "" => ""
  | String p rest =>
      if negb (Ascii.eqb p "%") then String p (skeleton rest)
      else
        match rest with
        | "" => "%"
        | String c r =>
            if Ascii.eqb c "%" then "%%" +:+ skeleton r
            else if isTable c then "%s" +:+ skeleton r
            else if is19 c then
              match r with
              | "" => String "%" (String c "")
              | String x r' =>
                  if Ascii.eqb x "n" then "%s" +:+ skeleton r'
                  else String "%" (String c (skeleton r))
              end
            else String "%" (String c (skeleton r))
        end
  end.

(** The function that [NewFormatter] stores for a directive. *)
Definition resolve (match_ : string) : FormatFunc :=
  match formats !! match_ with
  | Some f => f
  | None => λ t, formatNanoForMatch match_ t
  end.

(** The scan of [Format]. *)
Fixpoint render (t : Time) (s : string) : option string :=
  match s with
  | "" => Some ""
  | String p rest =>
      let copy := String p <$> render t rest in
      if negb (Ascii.eqb p "%") then copy
      else
        match rest with
        | "" => copy
        | String c r =>
            if Ascii.eqb c "%" || isTable c then
              out ← repl (String "%" (String c "")) t;
              outs ← render t r; Some (out +:+ outs)
            else if is19 c then
              match r with
              | "" => copy
              | String x r' =>
                  if Ascii.eqb x "n" then
                    out ← repl (String "%" (String c "n")) t;
                    outs ← render t r'; Some (out +:+ outs)
                  else copy
              end
            else copy
        end
  end.

(** The closure [f] of [NewFormatter]. *)
Definition NewFormatter_f (match_ : string) (_ : unit) : option (string * unit) :=
  if String.eqb match_ "%%" then Some (match_, tt)
  else Some ("%" +:+ match_, tt).

(** The closures [f1] and [f2] of [NewFormatter]. *)
Definition NewFormatter_f1 (match_ : string) (size : Z) : option (string * Z) :=
  if String.eqb match_ "%%" then Some (match_, size)
  else Some ("%s", size + 1).

Definition NewFormatter_f2 (match_ : string) (funs : list FormatFunc)
    : option (string * list FormatFunc) :=
  if String.eqb match_ "%%" then Some (match_, funs)
  else
    match formats !! match_ with
    | Some f => Some (match_, (funs ++ [f])%list)
    | None =>
        let f := λ t, formatNanoForMatch match_ t in
        Some (match_, (funs ++ [f])%list)
    end.

(** A template that ends on an unmatched [%] and a digit 1-9: an [n]
    appended to it would complete a directive. *)
Fixpoint pendingDigit_go (skip : nat) (s : string) : bool :=
  match s with
  | "" => false
  | String c rest =>
      match skip with
      | S k => pendingDigit_go k rest
      | O =>
          match matchAt fmtRe s with
          | Some (S k) => pendingDigit_go k rest
          | _ =>
              match rest with
              | String d "" => Ascii.eqb c "%" && is19 d
              | _ => pendingDigit_go 0 rest
              end
          end
      end
  end.

Definition pendingDigit (s : string) : bool := pendingDigit_go 0 s.

(** The templates in which every [%] that [fmtRe] leaves alone is doubled by
    the first scan of [NewFormatter]: there is no [%] at the end, no [%] and
    digit at the end, and no [%] and digit directly before another [%]. *)
Fixpoint escapable (s : string) : bool :=
  match s with
  | "" => true
  | String p rest =>
      if negb (Ascii.eqb p "%") then escapable rest
      else
        match rest with
        | "" => false
        | String c r =>
            if Ascii.eqb c "%" || isTable c then escapable r
            else if is19 c then
              match r with
              | "" => false
              | String x r' =>
                  if Ascii.eqb x "n" then escapable r'
                  else negb (Ascii.eqb x "%") && escapable r'
              end
            else escapable r
        end
  end.

(** A function applied to the text that [Sprintf] gives. *)
Definition modelled_map {A B} (f : A → B) (m : fmt.modelled A) : fmt.modelled B :=
  match m with
  | fmt.Known a => fmt.Known (f a)
  | fmt.Unmodelled => fmt.Unmodelled
  end.

(** The two decimal digits of a number below 100, and the digit of a number
    below 10. *)
Definition twoDigits (w : Z) : string :=
  String (Decimal.digit (w / 10)) (String (Decimal.digit (w mod 10)) "").

Definition oneDigit (w : Z) : string := String (Decimal.digit w) "".

(** The hour of the 12-hour clock, as [time.Format] computes it for the
    layout [3]. *)
Definition hour12 (t : Time) : Z :=
  let hr := Time_Hour t mod 12 in if hr =? 0 then 12 else hr.

(** * Properties *)

(** ** Byte strings *)

Lemma app_String c s r : String c s +:+ r = String c (s +:+ r).
Proof. reflexivity. Qed.

Lemma app_empty_l s : "" +:+ s = s.
Proof. reflexivity. Qed.

Lemma app_empty_r s : s +:+ "" = s.
Proof. induction s as [|c s IH]; [done|]. by rewrite app_String, IH. Qed.

Lemma app_assoc' s1 s2 s3 : (s1 +:+ s2) +:+ s3 = s1 +:+ (s2 +:+ s3).
Proof.
  induction s1 as [|c s1 IH]; [done|]. by rewrite !app_String, IH.
Qed.

Lemma drop_drop_1 k c r : GoString.drop (S k) (String c r) = GoString.drop k r.
Proof. reflexivity. Qed.

Lemma drop_0 s : GoString.drop 0 s = s.
Proof. by destruct s. Qed.

Lemma take_drop n s : GoString.take n s +:+ GoString.drop n s = s.
Proof.
  revert s; induction n as [|n IH]; intros [|c s]; simpl; try done.
  by rewrite app_String, IH.
Qed.

Lemma length_app s1 s2 :
  String.length (s1 +:+ s2) = (String.length s1 + String.length s2)%nat.
Proof.
  induction s1 as [|c s1 IH]; [done|].
  rewrite app_String. simpl. by rewrite IH.
Qed.

(** ** The scan of [ReplaceAllStringFunc] *)

Section ReplaceAllFacts.
Context {St : Type}.
Variable re : Regexp.
Variable repl : string → St → option (string * St).

Lemma replaceAll_go_skip k s st :
  replaceAll_go re repl k s st = replaceAll_go re repl 0 (GoString.drop k s) st.
Proof.
  revert k; induction s as [|c s IH]; intros [|k]; simpl; try done.
Qed.

Lemma ReplaceAll_empty st : ReplaceAllStringFunc re "" repl st = Some ("", st).
Proof. reflexivity. Qed.

(** A match at the head is replaced and the scan resumes behind it. *)
Lemma ReplaceAll_match c r k st :
  matchAt re (String c r) = Some (S k) →
  ReplaceAllStringFunc re (String c r) repl st =
    '(out, st') ← repl (GoString.take (S k) (String c r)) st;
    '(outs, st'') ← ReplaceAllStringFunc re (GoString.drop k r) repl st';
    Some (out +:+ outs, st'').
Proof.
  intros Hm. unfold ReplaceAllStringFunc. cbn [replaceAll_go]. rewrite Hm.
  destruct (repl _ st) as [[out st']|]; [|done]. simpl.
  by rewrite replaceAll_go_skip.
Qed.

(** Without a match at the head one byte is copied. *)
Lemma ReplaceAll_copy c r st :
  matchAt re (String c r) = None →
  ReplaceAllStringFunc re (String c r) repl st =
    '(outs, st') ← ReplaceAllStringFunc re r repl st;
    Some (String c outs, st').
Proof.
  intros Hm. unfold ReplaceAllStringFunc. cbn [replaceAll_go]. by rewrite Hm.
Qed.

End ReplaceAllFacts.

(** ** The two expressions of the package, byte by byte *)

Lemma formatsClass_eq :
  formatsClass = list_ascii_of_string "wWScmMUyYIaAZjbBdxXHp".
Proof. vm_compute. reflexivity. Qed.

Opaque formatsClass.

Lemma inClass_19 c : inClass [] [("1"%char, "9"%char)] c = is19 c.
Proof. unfold inClass, is19. simpl. by rewrite orb_false_r. Qed.

Lemma inClass_table_19 c :
  inClass formatsClass [("1"%char, "9"%char)] c = isTable c || is19 c.
Proof.
  unfold isTable, inClass, is19. simpl. by rewrite !orb_false_r.
Qed.

Lemma inClass_percent_table c :
  inClass ("%"%char :: formatsClass) [] c = Ascii.eqb c "%" || isTable c.
Proof. unfold isTable, inClass. simpl. by rewrite !orb_false_r. Qed.

Lemma inClass_n c : inClass ["n"%char] [] c = Ascii.eqb c "n".
Proof. unfold inClass. simpl. by rewrite !orb_false_r. Qed.

Lemma matchAt_fmtRe s : matchAt fmtRe s = fmtRe_len s.
Proof.
  unfold matchAt, fmtRe, initFormatRegexp, fmtRe_len.
  destruct s as [|p [|c r]]; cbn [matchLens].
  - done.
  - rewrite Ascii.eqb_sym. by destruct (Ascii.eqb p "%").
  - rewrite (Ascii.eqb_sym "%"%char p).
    destruct (Ascii.eqb p "%"); [|done].
    cbn [mbind list_bind mjoin fmap list_fmap app GoString.drop matchLens xorb].
    rewrite inClass_percent_table, inClass_19.
    destruct (Ascii.eqb c "%" || isTable c); [done|].
    destruct (is19 c); [|done].
    cbn [mbind list_bind fmap list_fmap app GoString.drop matchLens].
    destruct r as [|x r]; [done|].
    rewrite (Ascii.eqb_sym "n"%char x). by destruct (Ascii.eqb x "n").
Qed.

Lemma matchAt_fmtBackquoteRe s : matchAt fmtBackquoteRe s = fmtBackquoteRe_len s.
Proof.
  unfold matchAt, fmtBackquoteRe, initFormatBackquoteRegexp, fmtBackquoteRe_len.
  destruct s as [|p [|c r]]; cbn [matchLens].
  - done.
  - rewrite Ascii.eqb_sym. by destruct (Ascii.eqb p "%").
  - rewrite (Ascii.eqb_sym "%"%char p).
    destruct (Ascii.eqb p "%"); [|done].
    cbn [mbind list_bind mjoin fmap list_fmap app GoString.drop matchLens xorb].
    rewrite inClass_table_19, inClass_19.
    destruct (isTable c || is19 c) eqn:E1; cbn [negb xorb].
    + destruct (is19 c); [|done].
      cbn [mbind list_bind fmap list_fmap app GoString.drop matchLens].
      destruct r as [|x r]; [done|].
      rewrite inClass_n. by destruct (Ascii.eqb x "n").
    + done.
Qed.

(** The shapes of a string as [fmtRe] sees its head. *)
Lemma fmtRe_len_cases s :
  match fmtRe_len s with
  | None => True
  | Some n =>
      (n = 2%nat ∧ ∃ c r, s = String "%" (String c r)
                          ∧ (Ascii.eqb c "%" || isTable c) = true)
      ∨ (n = 3%nat ∧ ∃ d r, s = String "%" (String d (String "n" r))
                            ∧ (Ascii.eqb d "%" || isTable d) = false
                            ∧ is19 d = true)
  end.
Proof.
  destruct s as [|p [|c r]]; simpl; try done.
  destruct (Ascii.eqb_spec p "%") as [->|]; [|done].
  destruct (Ascii.eqb c "%" || isTable c) eqn:E.
  { left. split; [done|]. by exists c, r. }
  destruct (is19 c) eqn:E19; [|done].
  destruct r as [|x r]; [done|].
  destruct (Ascii.eqb_spec x "n") as [->|]; [|done].
  right. split; [done|]. by exists c, r.
Qed.

(** Induction along the scan of [fmtRe]. *)
Lemma fmtRe_ind (P : string → Prop) :
  P "" →
  (∀ p rest, fmtRe_len (String p rest) = None → P rest → P (String p rest)) →
  (∀ c r, (Ascii.eqb c "%" || isTable c) = true →
          P r → P (String "%" (String c r))) →
  (∀ d r, (Ascii.eqb d "%" || isTable d) = false → is19 d = true →
          P r → P (String "%" (String d (String "n" r)))) →
  ∀ s, P s.
Proof.
  intros H0 Hc H2 H3 s.
  assert (∀ n s, (String.length s ≤ n)%nat → P s) as Hn;
    [|by apply (Hn (String.length s))].
  clear s. induction n as [|n IH]; intros [|p rest] Hlen; simpl in *;
    try done; try lia.
  pose proof (fmtRe_len_cases (String p rest)) as Hcases.
  destruct (fmtRe_len (String p rest)) as [k|] eqn:E.
  - destruct Hcases as [[_ (c & r & [= -> ->] & Hc')]
                        |[_ (d & r & [= -> ->] & Hd & Hd')]].
    + apply H2; [done|]. apply IH. simpl in Hlen. lia.
    + apply H3; [done..|]. apply IH. simpl in Hlen. lia.
  - apply Hc; [done|]. apply IH. lia.
Qed.

Section FmtReScan.
Context {St : Type}.
Variable repl : string → St → option (string * St).

Lemma fmtRe_copy p rest st :
  fmtRe_len (String p rest) = None →
  ReplaceAllStringFunc fmtRe (String p rest) repl st =
    '(outs, st') ← ReplaceAllStringFunc fmtRe rest repl st;
    Some (String p outs, st').
Proof. intros E. apply ReplaceAll_copy. by rewrite matchAt_fmtRe. Qed.

Lemma fmtRe_two c r st :
  (Ascii.eqb c "%" || isTable c) = true →
  ReplaceAllStringFunc fmtRe (String "%" (String c r)) repl st =
    '(out, st') ← repl (String "%" (String c "")) st;
    '(outs, st'') ← ReplaceAllStringFunc fmtRe r repl st';
    Some (out +:+ outs, st'').
Proof.
  intros E. rewrite (ReplaceAll_match _ _ _ _ 1); [done|].
  rewrite matchAt_fmtRe. simpl. by rewrite E.
Qed.

Lemma fmtRe_three d r st :
  (Ascii.eqb d "%" || isTable d) = false → is19 d = true →
  ReplaceAllStringFunc fmtRe (String "%" (String d (String "n" r))) repl st =
    '(out, st') ← repl (String "%" (String d "n")) st;
    '(outs, st'') ← ReplaceAllStringFunc fmtRe r repl st';
    Some (out +:+ outs, st'').
Proof.
  intros E E19. rewrite (ReplaceAll_match _ _ _ _ 2); [done|].
  rewrite matchAt_fmtRe. simpl. by rewrite E, E19.
Qed.

End FmtReScan.

(** ** Templates that end inside a possible directive

    [pendingPercent s] holds when the scan of [fmtRe] over [s] ends on a [%]
    that no match has taken: text appended to [s] could then combine with
    it. *)

Lemma pendingPercent_copy p rest :
  fmtRe_len (String p rest) = None →
  pendingPercent (String p rest) =
    match rest with "" => Ascii.eqb p "%" | _ => pendingPercent rest end.
Proof.
  intros E. unfold pendingPercent. cbn [pendingPercent_go].
  by rewrite matchAt_fmtRe, E.
Qed.

Lemma pendingPercent_two c r :
  (Ascii.eqb c "%" || isTable c) = true →
  pendingPercent (String "%" (String c r)) = pendingPercent r.
Proof.
  intros E. unfold pendingPercent. cbn [pendingPercent_go].
  rewrite matchAt_fmtRe. simpl. by rewrite E.
Qed.

Lemma pendingPercent_three d r :
  (Ascii.eqb d "%" || isTable d) = false → is19 d = true →
  pendingPercent (String "%" (String d (String "n" r))) = pendingPercent r.
Proof.
  intros E E19. unfold pendingPercent. cbn [pendingPercent_go].
  rewrite matchAt_fmtRe. simpl. by rewrite E, E19.
Qed.

(** A head without a match stays without one when a [%] and more text
    follow the string, unless the string is a lone [%]. *)
Lemma fmtRe_len_app_percent p rest post :
  fmtRe_len (String p rest) = None →
  String p rest ≠ "%" →
  fmtRe_len (String p rest +:+ String "%" post) = None.
Proof.
  intros E Hne. rewrite app_String.
  destruct rest as [|c r].
  - simpl. destruct (Ascii.eqb_spec p "%") as [->|]; [done|].
    simpl. by destruct (Ascii.eqb_spec p "%").
  - rewrite app_String. simpl in *.
    destruct (Ascii.eqb p "%"); [|done].
    destruct (Ascii.eqb c "%" || isTable c); [done|].
    destruct (is19 c); [|done].
    destruct r as [|x r]; [done|]. by rewrite app_String.
Qed.

(** Splitting the scan at a [%] that follows a template with nothing
    pending. *)
Lemma fmtRe_split {St : Type} (repl : string → St → option (string * St))
    pre post st :
  pendingPercent pre = false →
  ReplaceAllStringFunc fmtRe (pre +:+ String "%" post) repl st =
    '(o1, st1) ← ReplaceAllStringFunc fmtRe pre repl st;
    '(o2, st2) ← ReplaceAllStringFunc fmtRe (String "%" post) repl st1;
    Some (o1 +:+ o2, st2).
Proof.
  revert st. induction pre as [|p rest E IH|c r E IH|d r E E19 IH]
    using fmtRe_ind; intros st Hp.
  - change ("" +:+ String "%" post) with (String "%" post).
    rewrite ReplaceAll_empty. simpl.
    by destruct (ReplaceAllStringFunc _ _ _ _) as [[??]|].
  - rewrite pendingPercent_copy in Hp by done.
    assert (String p rest ≠ "%") as Hne.
    { intros [= -> ->]. done. }
    rewrite app_String, fmtRe_copy;
      [|rewrite <- app_String; by apply fmtRe_len_app_percent].
    rewrite fmtRe_copy by done.
    rewrite IH; [|by destruct rest].
    destruct (ReplaceAllStringFunc fmtRe rest repl st) as [[o1 st1]|]; [|done].
    simpl.
    by destruct (ReplaceAllStringFunc fmtRe _ repl st1) as [[o2 st2]|].
  - rewrite pendingPercent_two in Hp by done.
    rewrite !app_String, !fmtRe_two by done.
    destruct (repl _ st) as [[out st']|]; [|done]. simpl.
    rewrite IH by done.
    destruct (ReplaceAllStringFunc fmtRe r repl st') as [[o1 st1]|]; [|done].
    simpl.
    destruct (ReplaceAllStringFunc fmtRe _ repl st1) as [[o2 st2]|]; [|done].
    simpl. by rewrite app_assoc'.
  - rewrite pendingPercent_three in Hp by done.
    rewrite !app_String, !fmtRe_three by done.
    destruct (repl _ st) as [[out st']|]; [|done]. simpl.
    rewrite IH by done.
    destruct (ReplaceAllStringFunc fmtRe r repl st') as [[o1 st1]|]; [|done].
    simpl.
    destruct (ReplaceAllStringFunc fmtRe _ repl st1) as [[o2 st2]|]; [|done].
    simpl. by rewrite app_assoc'.
Qed.

(** ** The directive table *)

(** Every key of [formats] is [%] and one directive byte, and its function
    returns. *)
Lemma formats_lookup_Some k f :
  formats !! k = Some f →
  ∃ c, k = String "%" (String c "") ∧ isTable c = true ∧ ∀ t, is_Some (f t).
Proof.
  unfold formats. intros H%elem_of_list_to_map_2.
  assert (∀ c, inClass (list_ascii_of_string "wWScmMUyYIaAZjbBdxXHp") [] c = true
               → isTable c = true) as Ht.
  { intros c. unfold isTable. by rewrite formatsClass_eq. }
  repeat (apply elem_of_cons in H as [[= -> ->]|H];
          [eexists; split; [reflexivity|]; split; [by apply Ht|]; by eexists|]).
  by apply elem_of_nil in H.
Qed.

Lemma isTable_cases c :
  isTable c = true → In c (list_ascii_of_string "wWScmMUyYIaAZjbBdxXHp").
Proof.
  unfold isTable, inClass. rewrite formatsClass_eq, orb_false_r.
  intros (x & Hx & ->%Ascii.eqb_eq)%existsb_exists. done.
Qed.

(** Every directive byte has an entry in [formats]. *)
Lemma isTable_lookup c :
  isTable c = true → is_Some (formats !! String "%" (String c "")).
Proof.
  intros H%isTable_cases. simpl in H.
  repeat (destruct H as [<-|H];
          [apply (bool_decide_unpack _); by vm_compute|]).
  done.
Qed.

Lemma isTable_percent : isTable "%" = false.
Proof. unfold isTable. rewrite formatsClass_eq. reflexivity. Qed.

Lemma isTable_n : isTable "n" = false.
Proof. unfold isTable. rewrite formatsClass_eq. reflexivity. Qed.

Lemma is19_not_table d : is19 d = true → isTable d = false.
Proof.
  intros H19. destruct (isTable d) eqn:E; [|done].
  apply isTable_cases in E. simpl in E.
  repeat (destruct E as [<-|E]; [by vm_compute in H19|]). done.
Qed.

Lemma is19_not_percent d : is19 d = true → Ascii.eqb d "%" = false.
Proof.
  intros H19. destruct (Ascii.eqb_spec d "%") as [->|]; [|done].
  by vm_compute in H19.
Qed.

(** ** [formatNano] and [formatNanoForMatch] *)

Lemma formatNano_Some nanosec n trim :
  0 ≤ n → is_Some (formatNano nanosec n trim).
Proof.
  intros Hn. unfold formatNano.
  destruct (n >? 9) eqn:E; simpl; [by eexists|].
  destruct (n <? 0) eqn:E'; [lia|]. by eexists.
Qed.

(** A match of at least two bytes has the byte that [formatNanoForMatch]
    reads, and the size it computes is never negative. *)
Lemma formatNanoForMatch_Some p c r t :
  is_Some (formatNanoForMatch (String p (String c r)) t).
Proof.
  unfold formatNanoForMatch, GoString.index. simpl.
  destruct (formatNano_Some (Time_Nanosecond t `mod` 2 ^ 64)
              ((Z.of_N (N_of_ascii c) - 48) `mod` 256) false) as [bs ->];
    [|by eexists].
  apply Z.mod_pos_bound. lia.
Qed.

(** ** [repl] on the matches of [fmtRe] *)

Lemma eqb_two_percent c :
  String.eqb (String "%" (String c "")) "%%" = Ascii.eqb c "%".
Proof. simpl. by destruct (Ascii.eqb c "%"). Qed.

Lemma eqb_three_percent d x :
  String.eqb (String "%" (String d (String x ""))) "%%" = false.
Proof. simpl. by destruct (Ascii.eqb d "%"). Qed.

Lemma repl_percent t : repl "%%" t = Some "%".
Proof. reflexivity. Qed.

Lemma repl_table c t :
  isTable c = true →
  ∃ f, formats !! String "%" (String c "") = Some f
       ∧ repl (String "%" (String c "")) t = f t
       ∧ is_Some (f t).
Proof.
  intros Hc. destruct (isTable_lookup c Hc) as [f Hf].
  exists f. split; [done|].
  destruct (formats_lookup_Some _ _ Hf) as (c' & _ & _ & Hsome).
  split; [|done]. unfold repl. rewrite eqb_two_percent.
  destruct (Ascii.eqb_spec c "%") as [->|].
  { by rewrite isTable_percent in Hc. }
  by rewrite Hf.
Qed.

Lemma repl_nano d t :
  is19 d = true →
  repl (String "%" (String d "n")) t
  = formatNanoForMatch (String "%" (String d "n")) t.
Proof.
  intros H19. unfold repl. rewrite eqb_three_percent.
  destruct (formats !! _) as [f|] eqn:Hf; [|done].
  by destruct (formats_lookup_Some _ _ Hf) as (c' & [=] & _).
Qed.

(** [repl] returns for every match of [fmtRe]. *)
Lemma repl_Some_two c t :
  (Ascii.eqb c "%" || isTable c) = true →
  is_Some (repl (String "%" (String c "")) t).
Proof.
  destruct (Ascii.eqb_spec c "%") as [->|]; simpl; [by eexists|].
  intros Hc. destruct (repl_table c t Hc) as (f & _ & -> & Hs). done.
Qed.

Lemma repl_Some_three d t :
  is19 d = true → is_Some (repl (String "%" (String d "n")) t).
Proof. intros H19. rewrite repl_nano by done. apply formatNanoForMatch_Some. Qed.

(** ** [Format] never panics *)

Lemma Format_unfold format t :
  Format format t = fst <$> ReplaceAllStringFunc fmtRe format (Format_fn t) tt.
Proof. reflexivity. Qed.

Lemma Format_fn_Some t m out :
  repl m t = Some out → Format_fn t m tt = Some (out, tt).
Proof. unfold Format_fn. by intros ->. Qed.

Lemma Format_total format t : is_Some (Format format t).
Proof.
  rewrite Format_unfold.
  induction format as [|p rest E IH|c r E IH|d r E E19 IH] using fmtRe_ind.
  - by eexists.
  - rewrite fmtRe_copy by done. destruct IH as [x Hx].
    destruct (ReplaceAllStringFunc _ _ _ _) as [[o []]|]; [by eexists|done].
  - rewrite fmtRe_two by done.
    destruct (repl_Some_two c t E) as [out Hout].
    rewrite (Format_fn_Some _ _ _ Hout). simpl.
    destruct IH as [x Hx].
    destruct (ReplaceAllStringFunc _ _ _ _) as [[o []]|]; [by eexists|done].
  - rewrite fmtRe_three by done.
    destruct (repl_Some_three d t E19) as [out Hout].
    rewrite (Format_fn_Some _ _ _ Hout). simpl.
    destruct IH as [x Hx].
    destruct (ReplaceAllStringFunc _ _ _ _) as [[o []]|]; [by eexists|done].
Qed.

(** ** A template that is one match *)

Lemma Format_one_two c t :
  (Ascii.eqb c "%" || isTable c) = true →
  Format (String "%" (String c "")) t = repl (String "%" (String c "")) t.
Proof.
  intros E. rewrite Format_unfold, fmtRe_two by done.
  unfold Format_fn. destruct (repl _ t) as [out|]; [|done].
  simpl. by rewrite app_empty_r.
Qed.

Lemma Format_one_three d t :
  is19 d = true →
  Format (String "%" (String d "n")) t = repl (String "%" (String d "n")) t.
Proof.
  intros E19. rewrite Format_unfold, fmtRe_three;
    [|by rewrite is19_not_percent, is19_not_table|done].
  unfold Format_fn. destruct (repl _ t) as [out|]; [|done].
  simpl. by rewrite app_empty_r.
Qed.

(** ** The sink *)

(** C9: [FormatTo] hands the bytes of [Format(template, t)] to the sink in
    one [Write] and returns what that [Write] returns, byte count and error
    unchanged; [Format] itself always returns, so the error can only be the
    sink's.  The compiled [FormatTo] does the same with the bytes that the
    compiled [Format] produces. *)
Theorem FormatTo_writes_Format `{io.Writer W} (w : W) (format : string)
    (t : Time) :
  (∃ result,
      Format format t = Some result
      ∧ FormatTo w format t = Some (io.Write w result))
  ∧ ∀ self : Formatter,
      Formatter_FormatTo self w t =
        match Formatter_Format self t with
        | Some (fmt.Known out) => Some (fmt.Known (io.Write w out))
        | Some fmt.Unmodelled => Some fmt.Unmodelled
        | None => None
        end.
Proof.
  split.
  - destruct (Format_total format t) as [result Hr].
    exists result. split; [done|]. unfold FormatTo. by rewrite Hr.
  - intros self. unfold Formatter_FormatTo, Formatter_Format.
    destruct (formatFunc self t) as [args|]; [|done].
    by destruct (fmt.Sprintf _ _).
Qed.

(** ** A [%] that starts no match *)

Lemma Format_split pre post t :
  pendingPercent pre = false →
  Format (pre +:+ String "%" post) t =
    o1 ← Format pre t; o2 ← Format (String "%" post) t; Some (o1 +:+ o2).
Proof.
  intros Hp. rewrite !Format_unfold, fmtRe_split by done.
  destruct (ReplaceAllStringFunc fmtRe pre _ tt) as [[o1 []]|]; [|done].
  simpl.
  by destruct (ReplaceAllStringFunc fmtRe _ _ tt) as [[o2 []]|].
Qed.

Lemma Format_copy p rest t :
  fmtRe_len (String p rest) = None →
  Format (String p rest) t = String p <$> Format rest t.
Proof.
  intros E. rewrite !Format_unfold, fmtRe_copy by done.
  by destruct (ReplaceAllStringFunc fmtRe rest _ tt) as [[o []]|].
Qed.

(** C10: a [%] that begins no match of [fmtRe] is copied to the output.  For
    a template [s] whose scan leaves no [%] pending,
    [Format(s + "%") = Format(s) + "%"], the same holds for [%] and a digit
    1-9 at the end, and more generally for [%] and any text at which
    [fmtRe] has no match. *)
Theorem Format_unmatched_percent (s : string) (t : Time) :
  pendingPercent s = false →
  ∃ out,
    Format s t = Some out
    ∧ Format (s +:+ "%") t = Some (out +:+ "%")
    ∧ (∀ d, is19 d = true →
         Format (s +:+ String "%" (String d "")) t
         = Some (out +:+ String "%" (String d "")))
    ∧ (∀ rest outs,
         fmtRe_len (String "%" rest) = None →
         Format rest t = Some outs →
         Format (s +:+ String "%" rest) t = Some (out +:+ String "%" outs)).
Proof.
  intros Hp. destruct (Format_total s t) as [out Hout]. exists out.
  split; [done|].
  assert (∀ rest outs,
            fmtRe_len (String "%" rest) = None →
            Format rest t = Some outs →
            Format (s +:+ String "%" rest) t = Some (out +:+ String "%" outs))
    as Hgen.
  { intros rest outs E Hr.
    rewrite Format_split, Hout by done. simpl.
    by rewrite Format_copy, Hr by done. }
  split; [by apply Hgen|]. split; [|done].
  intros d H19. apply Hgen.
  - simpl. by rewrite is19_not_percent, is19_not_table, H19.
  - by rewrite Format_copy.
Qed.

Lemma Format_unmatched_percent_witness :
  ∃ out,
    Format "%Y-%3" testTime = Some out
    ∧ Format ("%Y-%3" +:+ "%") testTime = Some (out +:+ "%")
    ∧ (∀ d, is19 d = true →
         Format ("%Y-%3" +:+ String "%" (String d "")) testTime
         = Some (out +:+ String "%" (String d "")))
    ∧ (∀ rest outs,
         fmtRe_len (String "%" rest) = None →
         Format rest testTime = Some outs →
         Format ("%Y-%3" +:+ String "%" rest) testTime
         = Some (out +:+ String "%" outs)).
Proof. apply (Format_unmatched_percent "%Y-%3" testTime). reflexivity. Defined.

(** ** Decimal digits *)

Lemma digit_value d : 0 ≤ d ≤ 9 → Z.of_N (N_of_ascii (Decimal.digit d)) = d + 48.
Proof.
  intros Hd. unfold Decimal.digit, GoString.byte_of_Z.
  rewrite Z.mod_small by lia.
  rewrite N_ascii_embedding by lia. lia.
Qed.

Lemma digit_isDecimalDigit d :
  0 ≤ d ≤ 9 → isDecimalDigit (Decimal.digit d) = true.
Proof.
  intros Hd.
  assert (d = 0 ∨ d = 1 ∨ d = 2 ∨ d = 3 ∨ d = 4 ∨ d = 5 ∨ d = 6 ∨ d = 7
          ∨ d = 8 ∨ d = 9) as H by lia.
  repeat (destruct H as [->|H]; [reflexivity|]). by subst.
Qed.

Lemma digit_not_zero d : 1 ≤ d ≤ 9 → Decimal.digit d ≠ "0"%char.
Proof.
  intros Hd E. pose proof (digit_value d ltac:(lia)) as Hv.
  rewrite E in Hv. cbn in Hv. lia.
Qed.

Lemma allDigits_app s1 s2 :
  allDigits (s1 +:+ s2) = allDigits s1 && allDigits s2.
Proof.
  unfold allDigits in *. induction s1 as [|c s1 IH]; [done|].
  rewrite app_String. cbn [list_ascii_of_string forallb].
  by rewrite IH, andb_assoc.
Qed.

(** What the loop of [Decimal.digits] puts before the digits it already
    has: at least one digit, digits only, of the value [n], without a
    leading zero unless [n] is 0. *)
Lemma digits_go_spec fuel n acc :
  (0 < fuel)%nat →
  0 ≤ n < 2 ^ Z.of_nat fuel →
  ∃ c r,
    Decimal.digits_go fuel n acc = String c r +:+ acc
    ∧ allDigits (String c r) = true
    ∧ (∀ a rest,
         decimalValue_go a (String c r +:+ rest)
         = decimalValue_go (a * 10 ^ Z.of_nat (String.length (String c r)) + n)
             rest)
    ∧ (n < 10 → r = "")
    ∧ (0 < n → c ≠ "0"%char).
Proof.
  revert n acc. induction fuel as [|fuel IH]; intros n acc Hf Hn; [lia|].
  cbn [Decimal.digits_go]. cbv zeta.
  destruct (n / 10 =? 0) eqn:E.
  - apply Z.eqb_eq in E.
    assert (0 ≤ n < 10) as Hn10 by (Z.div_mod_to_equations; lia).
    rewrite (Z.mod_small n 10) by lia.
    exists (Decimal.digit n), "". split; [done|]. split.
    { unfold allDigits. cbn. by rewrite digit_isDecimalDigit by lia. }
    split.
    { intros a rest. rewrite app_String, app_empty_l.
      cbn [decimalValue_go String.length].
      rewrite digit_value by lia. f_equal. lia. }
    split; [done|]. intros Hpos. apply digit_not_zero. lia.
  - apply Z.eqb_neq in E.
    assert (10 ≤ n) as Hn10 by (Z.div_mod_to_equations; lia).
    assert (0 ≤ n mod 10 ≤ 9) as Hm by (Z.div_mod_to_equations; lia).
    assert (0 < n / 10 < 2 ^ Z.of_nat fuel) as Hq.
    { rewrite Nat2Z.inj_succ, Z.pow_succ_r in Hn by lia.
      Z.div_mod_to_equations; lia. }
    assert (0 < fuel)%nat as Hf'.
    { destruct fuel; [|lia]. cbn in Hq. lia. }
    destruct (IH (n / 10) (String (Decimal.digit (n mod 10)) acc) Hf'
                ltac:(lia))
      as (c & r & Hgo & Hall & Hval & _ & Hnz).
    exists c, (r +:+ String (Decimal.digit (n mod 10)) "").
    split.
    { rewrite Hgo, !app_String, app_assoc'. done. }
    split.
    { change (String c (r +:+ String (Decimal.digit (n mod 10)) ""))
        with (String c r +:+ String (Decimal.digit (n mod 10)) "").
      rewrite allDigits_app, Hall. unfold allDigits. cbn.
      by rewrite digit_isDecimalDigit by lia. }
    split.
    { intros a rest.
      change (String c (r +:+ String (Decimal.digit (n mod 10)) ""))
        with (String c r +:+ String (Decimal.digit (n mod 10)) "").
      rewrite app_assoc', Hval, length_app.
      rewrite app_String, app_empty_l.
      cbn [decimalValue_go]. rewrite digit_value by lia.
      f_equal. cbn [String.length].
      rewrite Nat2Z.inj_add. change (Z.of_nat 1) with 1.
      rewrite Z.pow_add_r by lia. change (10 ^ 1) with 10.
      pose proof (Z.div_mod n 10 ltac:(lia)). 
      generalize dependent (10 ^ Z.of_nat (S (String.length r))).
      intros p. nia. }
    split; [lia|]. intros _. apply Hnz. lia.
Qed.

Lemma digits_spec n :
  0 ≤ n →
  ∃ c r,
    Decimal.digits n = String c r
    ∧ allDigits (String c r) = true
    ∧ decimalValue (String c r) = n
    ∧ (n < 10 → r = "")
    ∧ (0 < n → c ≠ "0"%char).
Proof.
  intros Hn. unfold Decimal.digits.
  destruct (digits_go_spec (S (Z.to_nat (Z.log2 n))) n "") as
    (c & r & Hgo & Hall & Hval & Hone & Hnz); [lia| |].
  { rewrite Nat2Z.inj_succ, Z2Nat.id by apply Z.log2_nonneg.
    destruct (Z.eq_dec n 0) as [->|Hne]; [done|].
    split; [lia|]. apply Z.log2_spec. lia. }
  exists c, r. rewrite Hgo, app_empty_r. split; [done|]. split; [done|].
  split; [|done].
  unfold decimalValue. specialize (Hval 0 "").
  rewrite app_empty_r in Hval. rewrite Hval. cbn [decimalValue_go]. lia.
Qed.

(** [%02d] of a count: decimal digits only, of the value of the count, at
    least two of them, and more than two only when the count needs them. *)
Lemma Sprintf_d_2_spec k :
  0 ≤ k →
  allDigits (Sprintf_d 2 k) = true
  ∧ decimalValue (Sprintf_d 2 k) = k
  ∧ (2 ≤ String.length (Sprintf_d 2 k))%nat
  ∧ ((2 < String.length (Sprintf_d 2 k))%nat →
     ∀ r, Sprintf_d 2 k ≠ String "0" r).
Proof.
  intros Hk. unfold Sprintf_d. destruct (k <? 0) eqn:E; [lia|].
  destruct (digits_spec k Hk) as (c & r & -> & Hall & Hval & Hone & Hnz).
  unfold Decimal.zero_pad. destruct r as [|c' r].
  - cbn [String.length Nat.sub GoString.repeat].
    rewrite app_String, app_empty_l.
    split.
    { unfold allDigits in *. cbn [list_ascii_of_string forallb] in *.
      by rewrite Hall. }
    split; [exact Hval|]. cbn [String.length]. split; [lia|]. lia.
  - replace (2 - String.length (String c (String c' r)))%nat with 0%nat
      by (cbn [String.length]; lia).
    cbn [GoString.repeat]. rewrite app_empty_l.
    split; [done|]. split; [done|]. split; [cbn [String.length]; lia|].
    intros _ r' [= -> _]. apply Hnz; [|done].
    destruct (Z.eq_dec k 0) as [->|]; [|lia]. by specialize (Hone ltac:(lia)).
Qed.

(** A count below 100 under [%02d]: its two digits. *)
Lemma Sprintf_d_two_digits w : 0 ≤ w ≤ 99 → Sprintf_d 2 w = twoDigits w.
Proof.
  intros Hw.
  assert (forallb (λ n, String.eqb (Sprintf_d 2 (Z.of_nat n))
                                   (twoDigits (Z.of_nat n)))
                  (seq 0 100) = true) as H by (vm_compute; reflexivity).
  rewrite forallb_forall in H.
  specialize (H (Z.to_nat w)). rewrite Z2Nat.id in H by lia.
  apply String.eqb_eq, H, in_seq. lia.
Qed.

(** ** The week number *)

Lemma weekAcc_S start i :
  weekAcc start (S i) = weekAcc (Time_Add start WEEK) i.
Proof. unfold weekAcc. by rewrite Nat.iter_succ_r. Qed.

(** The loop stops after the first [k] additions for which the accumulator
    is no longer before [t], and has counted them. *)
Lemma weekLoop_spec t start week :
  ∃ k : nat,
    weekLoop t start week = week + Z.of_nat k
    ∧ (∀ i, (i < k)%nat → Time_Before (weekAcc start i) t = true)
    ∧ Time_Before (weekAcc start k) t = false.
Proof.
  funelim (weekLoop t start week).
  - match goal with
    | IH : ∃ k : nat, _ |- _ => destruct IH as (k & Hk & Hlt & Hge)
    end.
    exists (S k). rewrite weekAcc_S. split; [|split].
    + rewrite Hk. lia.
    + intros [|i] Hi; [done|]. rewrite weekAcc_S. apply Hlt. lia.
    + done.
  - exists 0%nat. split; [lia|]. split; [lia|done].
Qed.

(** C4: [%U] and [%W] are rendered by the same function,
    [weekNumberFormatter]: starting from 1 January 23:00:00 UTC of the year of
    [t], it adds 7 days as long as the accumulator is before [t] and counts
    the additions.  What it returns is the count in decimal, padded with
    zeros to two digits: decimal digits only, of the value of the count, at
    least two of them, and more than two only when the count needs them; a
    count below 100 is rendered as its two digits. *)
Theorem week_number_U_W (t : Time) :
  formats !! "%U" = formats !! "%W"
  ∧ Format "%U" t = Some (weekNumberFormatter t)
  ∧ Format "%W" t = Some (weekNumberFormatter t)
  ∧ ∃ k : nat,
      (∀ i, (i < k)%nat → Time_Before (weekAcc (weekStart t) i) t = true)
      ∧ Time_Before (weekAcc (weekStart t) k) t = false
      ∧ allDigits (weekNumberFormatter t) = true
      ∧ decimalValue (weekNumberFormatter t) = Z.of_nat k
      ∧ (2 ≤ String.length (weekNumberFormatter t))%nat
      ∧ ((2 < String.length (weekNumberFormatter t))%nat →
         ∀ r, weekNumberFormatter t ≠ String "0" r)
      ∧ ((k < 100)%nat → weekNumberFormatter t = twoDigits (Z.of_nat k)).
Proof.
  assert (formats !! "%U" = Some (λ t, Some (weekNumberFormatter t))) as HU
    by exact eq_refl.
  assert (formats !! "%W" = Some (λ t, Some (weekNumberFormatter t))) as HW
    by exact eq_refl.
  assert (isTable "U" = true ∧ isTable "W" = true) as [EU EW].
  { unfold isTable. by rewrite formatsClass_eq. }
  split; [by rewrite HU, HW|].
  split; [|split].
  - rewrite Format_one_two by (by rewrite EU). unfold repl.
    rewrite eqb_two_percent. change (Ascii.eqb "U" "%") with false.
    by rewrite HU.
  - rewrite Format_one_two by (by rewrite EW). unfold repl.
    rewrite eqb_two_percent. change (Ascii.eqb "W" "%") with false.
    by rewrite HW.
  - destruct (weekLoop_spec t (weekStart t) 0) as (k & Hk & Hlt & Hge).
    exists k. split; [done|]. split; [done|].
    assert (weekNumberFormatter t = Sprintf_d 2 (Z.of_nat k)) as ->.
    { unfold weekNumberFormatter. fold (weekStart t). by rewrite Hk. }
    destruct (Sprintf_d_2_spec (Z.of_nat k) ltac:(lia))
      as (Hall & Hval & Hlen & Hlead).
    repeat (split; [done|]).
    intros Hk100. apply Sprintf_d_two_digits. lia.
Qed.

(** ** The reference instant of the tests *)

(** C3: at the reference instant 2009-11-10T23:01:02.000000003Z every
    single-letter directive renders to the value the tests expect. *)
Theorem golden_values :
  Format "%a" testTime = Some "Tue"
  ∧ Format "%A" testTime = Some "Tuesday"
  ∧ Format "%b" testTime = Some "Nov"
  ∧ Format "%B" testTime = Some "November"
  ∧ Format "%c" testTime = Some "Tue, 10 Nov 2009 23:01:02 UTC"
  ∧ Format "%d" testTime = Some "10"
  ∧ Format "%H" testTime = Some "23"
  ∧ Format "%I" testTime = Some "11"
  ∧ Format "%j" testTime = Some "314"
  ∧ Format "%m" testTime = Some "11"
  ∧ Format "%M" testTime = Some "01"
  ∧ Format "%p" testTime = Some "PM"
  ∧ Format "%S" testTime = Some "02"
  ∧ Format "%U" testTime = Some "45"
  ∧ Format "%w" testTime = Some "2"
  ∧ Format "%W" testTime = Some "45"
  ∧ Format "%x" testTime = Some "11/10/09"
  ∧ Format "%X" testTime = Some "23:01:02"
  ∧ Format "%y" testTime = Some "09"
  ∧ Format "%Y" testTime = Some "2009"
  ∧ Format "%Z" testTime = Some "UTC".
Proof. repeat split; vm_compute; reflexivity. Qed.

(** ** The day of the year *)

(** C5: the instant [lastNanoOfJuly1] is 181 whole days and
    86399.999999999 seconds after the start of 2009 and lies on 1 July, the
    182nd day of the year, but [%j] renders 183: in [float64], [Hours()] of
    that duration rounds up to exactly 4368, so the division by 24 gives
    182 before the [+ 1]. *)
Theorem day_of_year_rounds_up :
  Format "%j" lastNanoOfJuly1 = Some "183"
  ∧ Sprintf_d 3 (wholeDaysPlusOne lastNanoOfJuly1) = "182"
  ∧ (Time_Month lastNanoOfJuly1 = 7 ∧ Time_Day lastNanoOfJuly1 = 1)
  ∧ Time_Sub lastNanoOfJuly1 (Date 2009 January 1 0 0 0 0 UTC)
    = 182 * (24 * Hour) - 1
  ∧ Duration_Hours (182 * (24 * Hour) - 1) = float64_of_int 4368.
Proof. repeat split; vm_compute; reflexivity. Qed.

(** ** Fractional seconds *)

Lemma formatNano_fill_9 u :
  formatNano_fill 9 u (replicate 9 "000"%char)
  = (λ e, Decimal.digit ((u / 10 ^ e) mod 10)) <$> [8; 7; 6; 5; 4; 3; 2; 1; 0].
Proof.
  cbn -[Z.add Z.modulo Z.div Z.pow GoString.byte_of_Z].
  rewrite !Z.div_div by lia. unfold Decimal.digit.
  change (10 ^ 0) with 1. rewrite Z.div_1_r.
  repeat f_equal.
Qed.

Lemma string_of_take n l :
  string_of_list_ascii (take n l) = GoString.take n (string_of_list_ascii l).
Proof.
  revert l; induction n as [|n IH]; intros [|c l]; simpl; try done.
  by rewrite IH.
Qed.

Lemma is19_digit N : 1 ≤ N ≤ 9 → is19 (Decimal.digit N) = true.
Proof.
  intros HN.
  assert (N = 1 ∨ N = 2 ∨ N = 3 ∨ N = 4 ∨ N = 5 ∨ N = 6 ∨ N = 7 ∨ N = 8
          ∨ N = 9) as Hcases by lia.
  by repeat (destruct Hcases as [->|Hcases]; [done|]); subst.
Qed.

Lemma Time_Nanosecond_range t : 0 ≤ Time_Nanosecond t < 10 ^ 9.
Proof. unfold Time_Nanosecond, Second. apply Z.mod_pos_bound. lia. Qed.

(** With [n] between 0 and 9 and no trimming, [formatNano] returns the
    first [n] of the nine digits. *)
Lemma formatNano_digits nanosec n :
  0 ≤ n ≤ 9 →
  string_of_list_ascii <$> formatNano nanosec n false
  = Some (GoString.take (Z.to_nat n) (nanoDigits nanosec)).
Proof.
  intros Hn. unfold formatNano. cbv zeta. rewrite formatNano_fill_9.
  destruct (n >? 9) eqn:E; [lia|]. destruct (n <? 0) eqn:E'; [lia|].
  cbn [fmap option_fmap option_map]. by rewrite string_of_take.
Qed.

Lemma formatNanoForMatch_digit N t :
  1 ≤ N ≤ 9 →
  formatNanoForMatch (String "%" (String (Decimal.digit N) "n")) t
  = Some (GoString.take (Z.to_nat N) (nanoDigits (Time_Nanosecond t))).
Proof.
  intros HN. unfold formatNanoForMatch, GoString.index.
  cbn [String.get]. rewrite digit_value by lia.
  replace ((N + 48 - 48) `mod` 256) with N by (rewrite Z.mod_small; lia).
  pose proof (Time_Nanosecond_range t) as Hns.
  rewrite (Z.mod_small (Time_Nanosecond t)) by lia.
  pose proof (formatNano_digits (Time_Nanosecond t) N) as Hf.
  destruct (formatNano _ N false) as [bs|]; simpl in Hf; [|by apply Hf; lia].
  rewrite <- Hf by lia. done.
Qed.

(** The nine digits denote [ns]. *)
Lemma nanoDigits_value ns :
  0 ≤ ns < 10 ^ 9 → decimalValue (nanoDigits ns) = ns.
Proof.
  intros Hns. unfold nanoDigits, decimalValue.
  cbn [fmap list_fmap string_of_list_ascii decimalValue_go].
  rewrite !digit_value
    by (match goal with
        | |- 0 ≤ ?a mod 10 ≤ 9 => pose proof (Z.mod_pos_bound a 10); lia
        end).
  change (10 ^ 0) with 1. change (10 ^ 1) with 10. change (10 ^ 2) with 100.
  change (10 ^ 3) with 1000. change (10 ^ 4) with 10000.
  change (10 ^ 5) with 100000. change (10 ^ 6) with 1000000.
  change (10 ^ 7) with 10000000. change (10 ^ 8) with 100000000.
  change (10 ^ 9) with 1000000000 in Hns.
  rewrite Z.div_1_r.
  assert (∀ b b', b' = b * 10 → 0 < b →
            ns / b = 10 * (ns / b') + (ns / b) mod 10) as Hd.
  { intros b b' -> Hb. rewrite <- Z.div_div by lia. apply Z.div_mod. lia. }
  pose proof (Hd 1 10 eq_refl) as H0. rewrite Z.div_1_r in H0.
  pose proof (Hd 10 100 eq_refl) as H1.
  pose proof (Hd 100 1000 eq_refl) as H2.
  pose proof (Hd 1000 10000 eq_refl) as H3.
  pose proof (Hd 10000 100000 eq_refl) as H4.
  pose proof (Hd 100000 1000000 eq_refl) as H5.
  pose proof (Hd 1000000 10000000 eq_refl) as H6.
  pose proof (Hd 10000000 100000000 eq_refl) as H7.
  assert ((ns / 100000000) mod 10 = ns / 100000000) as H8.
  { apply Z.mod_small. split; [apply Z.div_pos; lia|].
    apply Z.div_lt_upper_bound; lia. }
  clear Hd.
  generalize dependent (ns / 10). generalize dependent (ns / 100).
  generalize dependent (ns / 1000). generalize dependent (ns / 10000).
  generalize dependent (ns / 100000). generalize dependent (ns / 1000000).
  generalize dependent (ns / 10000000). generalize dependent (ns / 100000000).
  intros. lia.
Qed.

(** C6: for [N] from 1 to 9, [%Nn] renders the first [N] of the nine decimal
    digits of the nanosecond, which lies between 0 and 999,999,999; the nine
    digits are padded with zeros on the left and denote the nanosecond;
    nothing is trimmed.  [formatNano] treats a width above 9 as 9.  At the
    reference instant [%3n], [%6n] and [%9n] give [000], [000000] and
    [000000003]. *)
Theorem fractional_seconds (t : Time) (N : Z) :
  1 ≤ N ≤ 9 →
  Format (String "%" (String (Decimal.digit N) "n")) t
  = Some (GoString.take (Z.to_nat N) (nanoDigits (Time_Nanosecond t)))
  ∧ 0 ≤ Time_Nanosecond t ≤ 999999999
  ∧ String.length (nanoDigits (Time_Nanosecond t)) = 9%nat
  ∧ decimalValue (nanoDigits (Time_Nanosecond t)) = Time_Nanosecond t
  ∧ (∀ nanosec n trim,
       9 < n → formatNano nanosec n trim = formatNano nanosec 9 trim)
  ∧ Format "%3n" testTime = Some "000"
  ∧ Format "%6n" testTime = Some "000000"
  ∧ Format "%9n" testTime = Some "000000003".
Proof.
  intros HN. pose proof (Time_Nanosecond_range t) as Hns.
  split; [|split; [lia|split; [done|split; [|split]]]].
  - rewrite Format_one_three by by apply is19_digit.
    rewrite repl_nano by by apply is19_digit.
    by apply formatNanoForMatch_digit.
  - by apply nanoDigits_value.
  - intros nanosec n trim Hn. unfold formatNano.
    destruct (n >? 9) eqn:E; [done|lia].
  - repeat split; vm_compute; reflexivity.
Qed.

Lemma fractional_seconds_witness :
  Format (String "%" (String (Decimal.digit 4) "n"))
    (Date 2009 November 10 23 1 2 120500000 UTC)
  = Some "1205".
Proof.
  destruct (fractional_seconds (Date 2009 November 10 23 1 2 120500000 UTC) 4)
    as [H _]; [lia|].
  exact H.
Defined.

(** ** The compiled path on templates that the escaping scan mishandles

    [fmtBackquoteRe] is meant to match every [%] that [fmtRe] leaves alone,
    so that the first scan of [NewFormatter] can double it.  It has no match
    for a [%] at the end of the template or before a final digit, and its
    alternative [[1-9][^n]] takes the byte after the digit even when that
    byte is a [%] that begins the next sequence.  The [%] that stays single
    reaches [fmt.Sprintf] as the start of a verb. *)

(** C1: on the template [%] the one-shot path returns [%], and the compiled
    path returns [%!(NOVERB)]: the skeleton is [%] itself.  The same happens
    for [%3]. *)
Theorem paths_differ_on_trailing_percent (t : Time) :
  Format "%" t = Some "%"
  ∧ compiledFormat "%" t = Some (fmt.Known "%!(NOVERB)")
  ∧ Format "%3" t = Some "%3"
  ∧ compiledFormat "%3" t = Some (fmt.Known "%!(NOVERB)")
  ∧ (strFormat <$> NewFormatter "%") = Some "%".
Proof. repeat split; vm_compute; reflexivity. Qed.

(** C2: for the template [%3%s] the skeleton is [%%3%s], which holds one
    [%s] verb, and the sequence of functions is empty: no directive was
    recognised, the counter of the second scan is 0, and [Sprintf] reports
    the operand that is missing. *)
Theorem placeholder_without_function (t : Time) :
  NewFormatter_scan "%3%s" = Some ("%%3%s", 0, [])
  ∧ placeholders "%%3%s" = 1%nat
  ∧ (strFormat <$> NewFormatter "%3%s") = Some "%%3%s"
  ∧ (NewFormatter "%3%s" ≫= λ self, formatFunc self t) = Some []
  ∧ compiledFormat "%3%s" t = Some (fmt.Known "%3%!s(MISSING)")
  ∧ Format "%3%s" t = Some "%3%s".
Proof. repeat split; vm_compute; reflexivity. Qed.

(** C7: [%g] alone passes through on both paths, but in [%3%g] the compiled
    path turns the unknown directive into [%!g(MISSING)], while the one-shot
    path copies it. *)
Theorem unknown_directive_after_digit (t : Time) :
  Format "%g" t = Some "%g"
  ∧ compiledFormat "%g" t = Some (fmt.Known "%g")
  ∧ Format "%3%g" t = Some "%3%g"
  ∧ compiledFormat "%3%g" t = Some (fmt.Known "%3%!g(MISSING)")
  ∧ (strFormat <$> NewFormatter "%3%g") = Some "%%3%g".
Proof. repeat split; vm_compute; reflexivity. Qed.

(** C8: [%%%Y] and [%3%%] render as the tests expect on both paths, but in
    [%3%%g] the compiled path separates the two bytes of [%%]: the first scan
    matches [%3%] and then [%g], the skeleton is [%%3%%%g], and the output is
    [%3%%!g(MISSING)] where the one-shot path gives [%3%g]. *)
Theorem literal_percent_after_digit (t : Time) :
  Format "%%%Y" testTime = Some "%2009"
  ∧ compiledFormat "%%%Y" testTime = Some (fmt.Known "%2009")
  ∧ Format "%3%%" t = Some "%3%"
  ∧ compiledFormat "%3%%" t = Some (fmt.Known "%3%")
  ∧ Format "%3%%g" t = Some "%3%g"
  ∧ compiledFormat "%3%%g" t = Some (fmt.Known "%3%%!g(MISSING)")
  ∧ (strFormat <$> NewFormatter "%3%%g") = Some "%%3%%%g".
Proof. repeat split; vm_compute; reflexivity. Qed.

(** ** The scans as recursive functions

    The three scans of [NewFormatter] and the scan of [Format], written by
    recursion on the template with the byte tests of the two expressions. *)

Arguments isTable : simpl never.
Arguments is19 : simpl never.

(** Induction on the length of a string. *)
Lemma string_length_ind (P : string → Prop) :
  (∀ s, (∀ s', (String.length s' < String.length s)%nat → P s') → P s) →
  ∀ s, P s.
Proof.
  intros H s.
  assert (∀ n s, (String.length s < n)%nat → P s) as Hn;
    [|apply (Hn (S (String.length s))); lia].
  clear s. induction n as [|n IH]; intros s Hs; [lia|].
  apply H. intros s' Hs'. apply IH. lia.
Qed.

(** One step of the scan of [fmtRe], by the bytes at the head. *)
Lemma fmtRe_unfold {St : Type} (repl' : string → St → option (string * St))
    s st :
  ReplaceAllStringFunc fmtRe s repl' st =
    match s with
    | "" => Some ("", st)
    | String p rest =>
        let copy :=
          '(outs, st') ← ReplaceAllStringFunc fmtRe rest repl' st;
          Some (String p outs, st') in
        if negb (Ascii.eqb p "%") then copy
        else
          match rest with
          | "" => copy
          | String c r =>
              if Ascii.eqb c "%" || isTable c then
                '(out, st') ← repl' (String "%" (String c "")) st;
                '(outs, st'') ← ReplaceAllStringFunc fmtRe r repl' st';
                Some (out +:+ outs, st'')
              else if is19 c then
                match r with
                | "" => copy
                | String x r' =>
                    if Ascii.eqb x "n" then
                      '(out, st') ← repl' (String "%" (String c "n")) st;
                      '(outs, st'') ← ReplaceAllStringFunc fmtRe r' repl' st';
                      Some (out +:+ outs, st'')
                    else copy
                end
              else copy
          end
    end.
Proof.
  destruct s as [|p rest]; [done|]. cbv zeta.
  destruct (Ascii.eqb_spec p "%") as [->|Hp]; cbn [negb].
  2: { apply fmtRe_copy. destruct rest; simpl; [done|].
       by rewrite (proj2 (Ascii.eqb_neq _ _) Hp). }
  destruct rest as [|c r]; [by apply fmtRe_copy|].
  destruct (Ascii.eqb c "%" || isTable c) eqn:E; [by apply fmtRe_two|].
  destruct (is19 c) eqn:E19.
  2: { apply fmtRe_copy. simpl. by rewrite E, E19. }
  destruct r as [|x r'].
  { apply fmtRe_copy. simpl. by rewrite E, E19. }
  destruct (Ascii.eqb_spec x "n") as [->|Hx]; [by apply fmtRe_three|].
  apply fmtRe_copy. simpl.
  by rewrite E, E19, (proj2 (Ascii.eqb_neq _ _) Hx).
Qed.

(** One step of the scan of [fmtBackquoteRe]. *)
Lemma fmtBackquoteRe_unfold {St : Type}
    (repl' : string → St → option (string * St)) s st :
  ReplaceAllStringFunc fmtBackquoteRe s repl' st =
    match s with
    | "" => Some ("", st)
    | String p rest =>
        let copy :=
          '(outs, st') ← ReplaceAllStringFunc fmtBackquoteRe rest repl' st;
          Some (String p outs, st') in
        if negb (Ascii.eqb p "%") then copy
        else
          match rest with
          | "" => copy
          | String c r =>
              if negb (isTable c || is19 c) then
                '(out, st') ← repl' (String "%" (String c "")) st;
                '(outs, st'') ← ReplaceAllStringFunc fmtBackquoteRe r repl' st';
                Some (out +:+ outs, st'')
              else if is19 c then
                match r with
                | "" => copy
                | String x r' =>
                    if Ascii.eqb x "n" then copy
                    else
                      '(out, st') ← repl' (String "%" (String c (String x ""))) st;
                      '(outs, st'') ←
                        ReplaceAllStringFunc fmtBackquoteRe r' repl' st';
                      Some (out +:+ outs, st'')
                end
              else copy
          end
    end.
Proof.
  destruct s as [|p rest]; [done|]. cbv zeta.
  assert (∀ s', fmtBackquoteRe_len (String p s') = None →
            ReplaceAllStringFunc fmtBackquoteRe (String p s') repl' st =
              '(outs, st') ← ReplaceAllStringFunc fmtBackquoteRe s' repl' st;
              Some (String p outs, st')) as Hcopy.
  { intros s' E. apply ReplaceAll_copy. by rewrite matchAt_fmtBackquoteRe. }
  destruct (Ascii.eqb_spec p "%") as [->|Hp]; cbn [negb].
  2: { apply Hcopy. destruct rest; cbn [fmtBackquoteRe_len]; [done|].
       by rewrite (proj2 (Ascii.eqb_neq _ _) Hp). }
  destruct rest as [|c r]; [by apply Hcopy|].
  destruct (isTable c) eqn:Et, (is19 c) eqn:E19; cbn [orb negb].
  - destruct r as [|x r'].
    { apply Hcopy. cbn [fmtBackquoteRe_len]. by rewrite Et, E19. }
    destruct (Ascii.eqb_spec x "n") as [->|Hx].
    { apply Hcopy. cbn [fmtBackquoteRe_len]. by rewrite Et, E19. }
    rewrite (ReplaceAll_match _ _ _ _ 2); [done|].
    rewrite matchAt_fmtBackquoteRe. cbn [fmtBackquoteRe_len].
    by rewrite Et, E19, (proj2 (Ascii.eqb_neq _ _) Hx).
  - apply Hcopy. cbn [fmtBackquoteRe_len]. by rewrite Et, E19.
  - destruct r as [|x r'].
    { apply Hcopy. cbn [fmtBackquoteRe_len]. by rewrite Et, E19. }
    destruct (Ascii.eqb_spec x "n") as [->|Hx].
    { apply Hcopy. cbn [fmtBackquoteRe_len]. by rewrite Et, E19. }
    rewrite (ReplaceAll_match _ _ _ _ 2); [done|].
    rewrite matchAt_fmtBackquoteRe. cbn [fmtBackquoteRe_len].
    by rewrite Et, E19, (proj2 (Ascii.eqb_neq _ _) Hx).
  - rewrite (ReplaceAll_match _ _ _ _ 1); [done|].
    rewrite matchAt_fmtBackquoteRe. cbn [fmtBackquoteRe_len].
    by rewrite Et, E19.
Qed.

Lemma is19_percent : is19 "%" = false.
Proof. reflexivity. Qed.

(** Case analysis on the byte tests that occur in the goal. *)
Ltac scan_split :=
  repeat (
    cbn [negb orb andb mbind option_bind fmap option_fmap option_map];
    rewrite ?isTable_percent, ?is19_percent;
    match goal with
    | |- context [Ascii.eqb ?a ?b] =>
        is_var a; destruct (Ascii.eqb_spec a b); [subst a|]
    | |- context [isTable ?c] => is_var c; destruct (isTable c) eqn:?
    | |- context [is19 ?c] => is_var c; destruct (is19 c) eqn:?
    | |- context [match ?s with "" => _ | String _ _ => _ end] =>
        is_var s; destruct s
    end);
  cbn [negb orb andb mbind option_bind fmap option_fmap option_map];
  rewrite ?isTable_percent, ?is19_percent.

Lemma eqb_n_percent : Ascii.eqb "n" "%" = false.
Proof. reflexivity. Qed.

(** Rewriting with the byte tests that are known. *)
Ltac scan_hyps :=
  repeat match goal with
    | H : ?a ≠ ?b |- context [Ascii.eqb ?a ?b] =>
        rewrite (proj2 (Ascii.eqb_neq a b) H)
    | H : isTable ?a = _ |- context [isTable ?a] => rewrite H
    | H : is19 ?a = _ |- context [is19 ?a] => rewrite H
    end.

Ltac scan_absurd :=
  match goal with
  | H : ?a ≠ ?a |- _ => by destruct H
  | H1 : isTable ?a = true, H2 : is19 ?a = true |- _ =>
      by rewrite (is19_not_table _ H2) in H1
  | H : is19 "n" = true |- _ => by vm_compute in H
  | H : isTable "n" = true |- _ => by rewrite isTable_n in H
  end.

Ltac scan_norm :=
  repeat progress (
    cbn [negb orb andb mbind option_bind fmap option_fmap option_map
         escape directives skeleton render];
    rewrite ?Ascii.eqb_refl, ?isTable_percent, ?is19_percent, ?isTable_n,
      ?eqb_n_percent, ?app_String, ?app_empty_l;
    scan_hyps).

Ltac scan_close IH :=
  try scan_absurd;
  scan_norm;
  rewrite ?IH by (cbn [String.length]; lia);
  scan_norm;
  try match goal with |- ?x = ?x => reflexivity end.

Lemma escape_spec s :
  ReplaceAllStringFunc fmtBackquoteRe s NewFormatter_f tt = Some (escape s, tt).
Proof.
  induction s as [s IH] using string_length_ind.
  rewrite fmtBackquoteRe_unfold. destruct s as [|p rest]; [done|].
  cbv zeta. cbn [escape]. scan_split;
    unfold NewFormatter_f; rewrite ?eqb_two_percent, ?eqb_three_percent;
    scan_close IH.
Qed.

Lemma NewFormatter_f2_resolve m funs :
  String.eqb m "%%" = false →
  NewFormatter_f2 m funs = Some (m, (funs ++ [resolve m])%list).
Proof.
  intros E. unfold NewFormatter_f2, resolve. rewrite E.
  by destruct (formats !! m).
Qed.

Lemma skeleton_spec s size :
  ReplaceAllStringFunc fmtRe s NewFormatter_f1 size
  = Some (skeleton s, size + Z.of_nat (length (directives s))).
Proof.
  revert size. induction s as [s IH] using string_length_ind. intros size.
  rewrite fmtRe_unfold. destruct s as [|p rest].
  { cbn. f_equal. f_equal. lia. }
  cbv zeta. cbn [skeleton directives]. scan_split;
    unfold NewFormatter_f1; rewrite ?eqb_two_percent, ?eqb_three_percent;
    scan_close IH;
    try (do 2 f_equal; cbn [length]; lia).
Qed.

Lemma directives_spec s funs :
  ReplaceAllStringFunc fmtRe s NewFormatter_f2 funs
  = Some (s, (funs ++ (resolve <$> directives s))%list).
Proof.
  revert funs. induction s as [s IH] using string_length_ind. intros funs.
  rewrite fmtRe_unfold. destruct s as [|p rest].
  { cbn. by rewrite app_nil_r. }
  cbv zeta. cbn [directives]. scan_split;
    rewrite ?NewFormatter_f2_resolve
      by (rewrite ?eqb_two_percent, ?eqb_three_percent; scan_norm; done);
    try (unfold NewFormatter_f2; rewrite eqb_two_percent, Ascii.eqb_refl);
    scan_close IH;
    try (cbn [fmap list_fmap]; rewrite <- ?app_assoc; reflexivity).
Qed.

Lemma Format_fn_repl t m :
  Format_fn t m tt = (λ o, (o, tt)) <$> repl m t.
Proof. unfold Format_fn. by destruct (repl m t). Qed.

Lemma render_scan t s :
  ReplaceAllStringFunc fmtRe s (Format_fn t) tt = (λ o, (o, tt)) <$> render t s.
Proof.
  induction s as [s IH] using string_length_ind.
  rewrite fmtRe_unfold. destruct s as [|p rest]; [done|].
  cbv zeta. cbn [render]. cbv zeta. scan_split;
    rewrite ?Format_fn_repl;
    repeat match goal with
      | |- context [repl ?m t] => destruct (repl m t)
      end;
    cbn [mbind option_bind fmap option_fmap option_map];
    rewrite ?IH by (cbn [String.length]; lia);
    repeat match goal with
      | |- context [render t ?r] => destruct (render t r)
      end;
    reflexivity.
Qed.

(** [Format] is the recursive scan. *)
Lemma Format_render format t : Format format t = render t format.
Proof.
  rewrite Format_unfold, render_scan. by destruct (render t format).
Qed.

(** What [NewFormatter] computes: the skeleton of the escaped template, the
    number of placeholders in it, and the functions of the directives of
    the template. *)
Lemma NewFormatter_scan_spec format :
  NewFormatter_scan format
  = Some (skeleton (escape format),
          Z.of_nat (length (directives (escape format))),
          resolve <$> directives format).
Proof.
  unfold NewFormatter_scan.
  change (ReplaceAllStringFunc fmtBackquoteRe format _ tt)
    with (ReplaceAllStringFunc fmtBackquoteRe format NewFormatter_f tt).
  rewrite escape_spec.
  change (ReplaceAllStringFunc fmtRe (escape format) _ 0)
    with (ReplaceAllStringFunc fmtRe (escape format) NewFormatter_f1 0).
  rewrite skeleton_spec.
  change (ReplaceAllStringFunc fmtRe format _ [])
    with (ReplaceAllStringFunc fmtRe format NewFormatter_f2 []).
  by rewrite directives_spec.
Qed.

(** ** The number of placeholders that [NewFormatter] inserts *)

Lemma directives_copy p X : p ≠ "%"%char → directives (String p X) = directives X.
Proof. intros Hp. cbn [directives]. by scan_hyps. Qed.

Lemma directives_pp X : directives (String "%" (String "%" X)) = directives X.
Proof. reflexivity. Qed.

Lemma directives_table c X :
  isTable c = true →
  directives (String "%" (String c X))
  = String "%" (String c "") :: directives X.
Proof.
  intros Hc. cbn [directives]. destruct (Ascii.eqb_spec c "%") as [->|].
  - by rewrite isTable_percent in Hc.
  - by rewrite Hc.
Qed.

Lemma directives_19 c X :
  is19 c = true →
  directives (String "%" (String c X))
  = match X with
    | "" => []
    | String x X' =>
        if Ascii.eqb x "n" then String "%" (String c "n") :: directives X'
        else directives X
    end.
Proof.
  intros Hc. cbn [directives].
  by rewrite (is19_not_percent _ Hc), (is19_not_table _ Hc), Hc.
Qed.

Lemma directives_other c X :
  c ≠ "%"%char → isTable c = false → is19 c = false →
  directives (String "%" (String c X)) = directives X.
Proof. intros H1 H2 H3. cbn [directives]. by scan_hyps. Qed.

Ltac esc_norm :=
  repeat progress (
    cbn [negb orb andb escape];
    rewrite ?Ascii.eqb_refl, ?isTable_percent, ?is19_percent, ?isTable_n,
      ?eqb_n_percent, ?app_String, ?app_empty_l;
    scan_hyps).

(** The escaped text starts with the byte the text starts with. *)
Lemma escape_head x r : ∃ Y, escape (String x r) = String x Y.
Proof.
  cbn [escape]. scan_split; scan_norm; by eexists.
Qed.

(** Escaping does not change how many directives [fmtRe] finds, with or
    without a [%] in front. *)
Lemma directives_escape s :
  length (directives (escape s)) = length (directives s)
  ∧ length (directives (String "%" (escape s)))
    = length (directives (String "%" s)).
Proof.
  induction s as [s IH] using string_length_ind.
  assert (∀ x r, (String.length r < String.length s)%nat →
            length (directives (String x (escape r)))
            = length (directives (String x r))) as HQ.
  { intros x r Hr. destruct (Ascii.eqb_spec x "%") as [->|Hx].
    - by apply IH.
    - rewrite !directives_copy by done. by apply IH. }
  destruct s as [|p rest]; [done|].
  destruct (Ascii.eqb_spec p "%") as [->|Hp].
  - destruct rest as [|c r]; [done|].
    destruct (Ascii.eqb_spec c "%") as [->|Hc].
    { cbn [escape]. esc_norm. rewrite !directives_pp. split.
      - apply IH. cbn. lia.
      - apply IH. cbn. lia. }
    destruct (isTable c) eqn:Et.
    { cbn [escape]. esc_norm. rewrite !directives_pp.
      rewrite !directives_table, !(directives_copy c) by done. cbn [length].
      split; [f_equal|]; apply IH; cbn; lia. }
    destruct (is19 c) eqn:E19.
    2: { cbn [escape]. esc_norm. rewrite !directives_pp.
         rewrite !directives_other, !(directives_copy c) by done.
         split; apply IH; cbn; lia. }
    destruct r as [|x r'].
    { cbn [escape]. esc_norm. done. }
    destruct (Ascii.eqb_spec x "n") as [->|Hx].
    { cbn [escape]. esc_norm. rewrite !directives_pp.
      rewrite !directives_19 by done. rewrite !Ascii.eqb_refl.
      rewrite !(directives_copy c), !(directives_copy "n") by done.
      cbn [length].
      split; [f_equal|]; apply IH; cbn; lia. }
    cbn [escape]. esc_norm. rewrite !directives_pp.
    rewrite !directives_19 by done. scan_hyps.
    rewrite !(directives_copy c) by done.
    split; apply HQ; cbn; lia.
  - cbn [escape]. esc_norm. rewrite !(directives_copy p) by done.
    split; [apply IH; cbn; lia|].
    destruct (isTable p) eqn:Et.
    { rewrite !directives_table by done. cbn [length]. f_equal.
      apply IH. cbn. lia. }
    destruct (is19 p) eqn:E19.
    2: { rewrite !directives_other by done. apply IH. cbn. lia. }
    rewrite !directives_19 by done.
    destruct rest as [|x r']; [done|].
    destruct (escape_head x r') as [Y HY]. rewrite HY.
    destruct (Ascii.eqb_spec x "n") as [->|Hx].
    + cbn [escape] in HY. esc_norm. revert HY.
      esc_norm. intros [= <-]. cbn [length]. f_equal. apply IH. cbn. lia.
    + rewrite <- HY. apply IH. cbn. lia.
Qed.

(** For every template the counter [size], which [NewFormatter] passes to
    [make] as the capacity of [funs], is the length that [funs] reaches: the
    second scan writes as many placeholders into the escaped template as
    the third scan finds directives in the template itself.  The functions
    are those of the directives, from left to right. *)
Theorem NewFormatter_size_funs (format : string) :
  ∃ strFormat funs,
    NewFormatter_scan format = Some (strFormat, Z.of_nat (length funs), funs)
    ∧ funs = resolve <$> directives format
    ∧ strFormat = skeleton (escape format).
Proof.
  exists (skeleton (escape format)), (resolve <$> directives format).
  rewrite NewFormatter_scan_spec, length_fmap.
  by rewrite (proj1 (directives_escape format)).
Qed.

(** Every directive that the third scan collects has a function that
    returns. *)
Lemma directives_resolve s t :
  Forall (λ m, is_Some (resolve m t)) (directives s).
Proof.
  induction s as [s IH] using string_length_ind.
  destruct s as [|p rest]; [by constructor|].
  cbn [directives]. scan_split; try scan_absurd;
    try (constructor; [|apply IH; cbn; lia]);
    try (apply IH; cbn; lia); try by constructor.
  - unfold resolve.
    destruct (isTable_lookup a) as [f Hf]; [done|]. rewrite Hf.
    by destruct (formats_lookup_Some _ _ Hf) as (? & _ & _ & ?).
  - unfold resolve. destruct (formats !! _) as [f|] eqn:Hf.
    + by destruct (formats_lookup_Some _ _ Hf) as (? & [=] & _).
    + apply formatNanoForMatch_Some.
Qed.

Lemma applyFuns_Some funs t :
  Forall (λ f : FormatFunc, is_Some (f t)) funs →
  ∃ args, applyFuns funs t = Some args ∧ length args = length funs.
Proof.
  induction 1 as [|f funs [v Hv] _ (args & Hargs & Hlen)]; cbn [applyFuns].
  - by exists [].
  - rewrite Hv, Hargs. exists (v :: args). split; [done|].
    cbn [length]. by rewrite Hlen.
Qed.

(** [NewFormatter] and the compiled [Format] never panic: every template
    compiles, and for every timestamp the stored functions all return, one
    operand for each function. *)
Theorem Formatter_Format_returns (template : string) (t : Time) :
  ∃ self args,
    NewFormatter template = Some self
    ∧ format self = template
    ∧ formatFunc self t = Some args
    ∧ length args = length (directives template)
    ∧ Formatter_Format self t = Some (fmt.Sprintf (strFormat self) args).
Proof.
  unfold NewFormatter. rewrite NewFormatter_scan_spec.
  destruct (applyFuns_Some (resolve <$> directives template) t)
    as (args & Hargs & Hlen).
  { apply Forall_fmap. apply directives_resolve. }
  eexists _, args. split; [reflexivity|]. cbn.
  split; [done|]. split; [done|]. split.
  - by rewrite Hlen, length_fmap.
  - unfold Formatter_Format. cbn. by rewrite Hargs.
Qed.

(** ** The one-shot path, piece by piece *)

Lemma pendingDigit_copy p rest :
  fmtRe_len (String p rest) = None →
  pendingDigit (String p rest) =
    match rest with
    | String d "" => Ascii.eqb p "%" && is19 d
    | _ => pendingDigit rest
    end.
Proof.
  intros E. unfold pendingDigit. cbn [pendingDigit_go].
  by rewrite matchAt_fmtRe, E.
Qed.

Lemma pendingDigit_two c r :
  (Ascii.eqb c "%" || isTable c) = true →
  pendingDigit (String "%" (String c r)) = pendingDigit r.
Proof.
  intros E. unfold pendingDigit. cbn [pendingDigit_go].
  rewrite matchAt_fmtRe. cbn [fmtRe_len]. by rewrite Ascii.eqb_refl, E.
Qed.

Lemma pendingDigit_three d r :
  (Ascii.eqb d "%" || isTable d) = false → is19 d = true →
  pendingDigit (String "%" (String d (String "n" r))) = pendingDigit r.
Proof.
  intros E E19. unfold pendingDigit. cbn [pendingDigit_go].
  rewrite matchAt_fmtRe. cbn [fmtRe_len].
  by rewrite !Ascii.eqb_refl, E, E19.
Qed.

(** A head without a match stays without one when text is appended, unless
    the string is a lone [%] or a lone [%] and digit. *)
Lemma fmtRe_len_app p rest post :
  fmtRe_len (String p rest) = None →
  pendingPercent (String p rest) = false →
  pendingDigit (String p rest) = false →
  fmtRe_len (String p rest +:+ post) = None.
Proof.
  intros E Hp Hd.
  rewrite pendingPercent_copy in Hp by done.
  rewrite pendingDigit_copy in Hd by done.
  rewrite app_String. cbn [fmtRe_len] in *.
  destruct (Ascii.eqb_spec p "%") as [->|Hne].
  2: { by destruct (rest +:+ post). }
  destruct rest as [|c r]; [done|]. rewrite app_String.
  destruct (Ascii.eqb c "%" || isTable c); [done|].
  destruct (is19 c); [|done].
  destruct r as [|x r]; [done|]. by rewrite app_String.
Qed.

(** [Format] of a concatenation is the concatenation of the two renderings
    when the first part does not end inside a possible directive. *)
Theorem Format_app (pre post : string) (t : Time) :
  pendingPercent pre = false →
  pendingDigit pre = false →
  ∃ o1 o2,
    Format pre t = Some o1
    ∧ Format post t = Some o2
    ∧ Format (pre +:+ post) t = Some (o1 +:+ o2).
Proof.
  intros Hp Hd.
  destruct (Format_total post t) as [o2 Ho2].
  induction pre as [|p rest E IH|c r E IH|d r E E19 IH] using fmtRe_ind.
  - exists "", o2. by rewrite app_empty_l.
  - pose proof (fmtRe_len_app p rest post E Hp Hd) as Eapp.
    rewrite pendingPercent_copy in Hp by done.
    rewrite pendingDigit_copy in Hd by done.
    assert (pendingPercent rest = false) as Hp' by (by destruct rest).
    assert (pendingDigit rest = false) as Hd'.
    { destruct rest as [|d [|]]; try done.
      unfold pendingDigit. cbn [pendingDigit_go]. by rewrite matchAt_fmtRe. }
    destruct (IH Hp' Hd') as (o1 & o2' & H1 & H2 & H3).
    assert (o2' = o2) as -> by congruence.
    exists (String p o1), o2.
    rewrite Format_copy, H1 by done. split; [done|]. split; [done|].
    rewrite app_String in *. by rewrite Format_copy, H3.
  - rewrite pendingPercent_two in Hp by done.
    rewrite pendingDigit_two in Hd by done.
    destruct (IH Hp Hd) as (o1 & o2' & H1 & H2 & H3).
    assert (o2' = o2) as -> by congruence.
    rewrite !app_String, !Format_render in *. cbn [render]. cbv zeta.
    rewrite Ascii.eqb_refl, E. cbn [negb].
    destruct (repl_Some_two c t E) as [out ->].
    rewrite H1, H3. cbn. exists (out +:+ o1), o2. by rewrite app_assoc'.
  - rewrite pendingPercent_three in Hp by done.
    rewrite pendingDigit_three in Hd by done.
    destruct (IH Hp Hd) as (o1 & o2' & H1 & H2 & H3).
    assert (o2' = o2) as -> by congruence.
    rewrite !app_String, !Format_render in *. cbn [render]. cbv zeta.
    rewrite !Ascii.eqb_refl, E, E19. cbn [negb].
    destruct (repl_Some_three d t E19) as [out ->].
    rewrite H1, H3. cbn. exists (out +:+ o1), o2. by rewrite app_assoc'.
Qed.

Lemma Format_app_witness :
  ∃ o1 o2,
    Format "%Y-%m" testTime = Some o1
    ∧ Format "n%d %" testTime = Some o2
    ∧ Format ("%Y-%m" +:+ "n%d %") testTime = Some (o1 +:+ o2).
Proof. apply (Format_app "%Y-%m" "n%d %" testTime); reflexivity. Defined.

(** A [%%] that the scan reaches renders as one [%], whatever stands before
    and after it. *)
Theorem Format_literal_percent (pre post : string) (t : Time) :
  pendingPercent pre = false →
  ∃ o1 o2,
    Format pre t = Some o1
    ∧ Format post t = Some o2
    ∧ Format (pre +:+ "%%" +:+ post) t = Some (o1 +:+ "%" +:+ o2).
Proof.
  intros Hp.
  destruct (Format_total pre t) as [o1 H1].
  destruct (Format_total post t) as [o2 H2].
  exists o1, o2. split; [done|]. split; [done|].
  rewrite !app_String, app_empty_l, Format_split, H1 by done.
  rewrite (Format_render (String "%" _)). cbn [render]. cbv zeta.
  rewrite !Ascii.eqb_refl. cbn [negb orb]. rewrite repl_percent.
  rewrite <- Format_render, H2. reflexivity.
Qed.

Lemma Format_literal_percent_witness :
  ∃ o1 o2,
    Format "%3" testTime = Some o1
    ∧ Format "%Y" testTime = Some o2
    ∧ Format ("%3" +:+ "%%" +:+ "%Y") testTime = Some (o1 +:+ "%" +:+ o2).
Proof. apply (Format_literal_percent "%3" "%Y" testTime). reflexivity. Defined.

(** A directive of the table is replaced by what its function returns for
    [t], and [%Nn] by the first [N] digits of the nanosecond, whatever
    stands before and after them; nothing else of the template changes. *)
Theorem Format_directive (pre post : string) (t : Time) :
  pendingPercent pre = false →
  ∃ o1 o2,
    Format pre t = Some o1
    ∧ Format post t = Some o2
    ∧ (∀ c f, formats !! String "%" (String c "") = Some f →
         ∃ v, f t = Some v
              ∧ Format (pre +:+ String "%" (String c "") +:+ post) t
                = Some (o1 +:+ v +:+ o2))
    ∧ (∀ N, 1 ≤ N ≤ 9 →
         Format (pre +:+ String "%" (String (Decimal.digit N) "n") +:+ post) t
         = Some (o1 +:+ GoString.take (Z.to_nat N)
                          (nanoDigits (Time_Nanosecond t)) +:+ o2)).
Proof.
  intros Hp.
  destruct (Format_total pre t) as [o1 H1].
  destruct (Format_total post t) as [o2 H2].
  exists o1, o2. split; [done|]. split; [done|]. split.
  - intros c f Hf.
    destruct (formats_lookup_Some _ _ Hf) as (c' & [= <-] & Hc & Hsome).
    destruct (Hsome t) as [v Hv]. exists v. split; [done|].
    rewrite !app_String, app_empty_l, Format_split, H1 by done.
    rewrite (Format_render (String "%" _)). cbn [render]. cbv zeta.
    rewrite !Ascii.eqb_refl, Hc, orb_true_r. cbn [negb].
    destruct (repl_table c t Hc) as (f' & Hf' & -> & _).
    assert (f' = f) as -> by congruence.
    by rewrite Hv, <- Format_render, H2.
  - intros N HN. pose proof (is19_digit N HN) as H19.
    rewrite !app_String, app_empty_l, Format_split, H1 by done.
    rewrite (Format_render (String "%" _)). cbn [render]. cbv zeta.
    rewrite !Ascii.eqb_refl, (is19_not_percent _ H19),
      (is19_not_table _ H19), H19. cbn [negb orb].
    rewrite repl_nano, formatNanoForMatch_digit by done.
    by rewrite <- Format_render, H2.
Qed.

Lemma Format_directive_witness :
  ∃ o1 o2,
    Format "/path/" testTime = Some o1
    ∧ Format "/report" testTime = Some o2
    ∧ (∀ c f, formats !! String "%" (String c "") = Some f →
         ∃ v, f testTime = Some v
              ∧ Format ("/path/" +:+ String "%" (String c "") +:+ "/report")
                  testTime
                = Some (o1 +:+ v +:+ o2))
    ∧ (∀ N, 1 ≤ N ≤ 9 →
         Format ("/path/" +:+ String "%" (String (Decimal.digit N) "n")
                 +:+ "/report") testTime
         = Some (o1 +:+ GoString.take (Z.to_nat N)
                          (nanoDigits (Time_Nanosecond testTime)) +:+ o2)).
Proof. apply (Format_directive "/path/" "/report" testTime). reflexivity. Defined.

(** A [%] followed by a byte that is neither [%], a directive byte nor a
    digit 1-9 is copied with that byte, and so is a [%] with a digit 1-9
    that the rest of the template does not continue with [n]. *)
Theorem Format_unknown_directive (pre post : string) (t : Time) :
  pendingPercent pre = false →
  ∃ o1 o2,
    Format pre t = Some o1
    ∧ Format post t = Some o2
    ∧ (∀ c, c ≠ "%"%char → isTable c = false → is19 c = false →
         Format (pre +:+ String "%" (String c "") +:+ post) t
         = Some (o1 +:+ String "%" (String c "") +:+ o2))
    ∧ (∀ d, is19 d = true → String.prefix "n" post = false →
         Format (pre +:+ String "%" (String d "") +:+ post) t
         = Some (o1 +:+ String "%" (String d "") +:+ o2)).
Proof.
  intros Hp.
  destruct (Format_total pre t) as [o1 H1].
  destruct (Format_total post t) as [o2 H2].
  exists o1, o2. split; [done|]. split; [done|]. split.
  - intros c Hc Ht H19.
    rewrite !app_String, app_empty_l, Format_split, H1 by done.
    rewrite (Format_render (String "%" _)). cbn [render]. cbv zeta.
    rewrite !Ascii.eqb_refl. scan_hyps. cbn [negb orb].
    by rewrite <- Format_render, H2.
  - intros d H19 Hn.
    rewrite !app_String, app_empty_l, Format_split, H1 by done.
    rewrite (Format_render (String "%" _)). cbn [render]. cbv zeta.
    rewrite !Ascii.eqb_refl, (is19_not_percent _ H19),
      (is19_not_table _ H19), H19. cbn [negb orb].
    rewrite <- !Format_render.
    destruct post as [|x post'].
    + by rewrite H2.
    + cbn [String.prefix] in Hn.
      destruct (Ascii.eqb_spec x "n") as [->|Hx].
      { destruct (ascii_dec "n" "n"); [|done]. by destruct post'. }
      by rewrite H2.
Qed.

Lemma Format_unknown_directive_witness :
  ∃ o1 o2,
    Format "%H:" testTime = Some o1
    ∧ Format "%M" testTime = Some o2
    ∧ (∀ c, c ≠ "%"%char → isTable c = false → is19 c = false →
         Format ("%H:" +:+ String "%" (String c "") +:+ "%M") testTime
         = Some (o1 +:+ String "%" (String c "") +:+ o2))
    ∧ (∀ d, is19 d = true → String.prefix "n" "%M" = false →
         Format ("%H:" +:+ String "%" (String d "") +:+ "%M") testTime
         = Some (o1 +:+ String "%" (String d "") +:+ o2)).
Proof. apply (Format_unknown_directive "%H:" "%M" testTime). reflexivity. Defined.

(** ** Templates on which the two paths agree *)

Lemma doPrintf_literal c X args :
  c ≠ "%"%char →
  fmt.doPrintf 0 (String c X) args
  = modelled_map (String c) (fmt.doPrintf 0 X args).
Proof.
  intros Hc. cbn [fmt.doPrintf]. rewrite (proj2 (Ascii.eqb_neq _ _) Hc).
  by destruct (fmt.doPrintf 0 X args).
Qed.

Lemma verbAt_percent X args :
  fmt.verbAt (String "%" (String "%" X)) args = fmt.Known ("%", 2%nat, args).
Proof. reflexivity. Qed.

Lemma verbAt_s X a args :
  fmt.verbAt (String "%" (String "s" X)) (a :: args)
  = fmt.Known (a, 2%nat, args).
Proof. reflexivity. Qed.

Lemma doPrintf_percent X args :
  fmt.doPrintf 0 (String "%" (String "%" X)) args
  = modelled_map (String "%") (fmt.doPrintf 0 X args).
Proof.
  cbn [fmt.doPrintf]. rewrite Ascii.eqb_refl, verbAt_percent.
  cbn [Nat.sub fmt.doPrintf]. by destruct (fmt.doPrintf 0 X args).
Qed.

Lemma doPrintf_s X a args :
  fmt.doPrintf 0 (String "%" (String "s" X)) (a :: args)
  = modelled_map (String.append a) (fmt.doPrintf 0 X args).
Proof.
  cbn [fmt.doPrintf]. rewrite Ascii.eqb_refl, verbAt_s.
  cbn [Nat.sub fmt.doPrintf]. by destruct (fmt.doPrintf 0 X args).
Qed.

Lemma repl_resolve m t :
  String.eqb m "%%" = false → repl m t = resolve m t.
Proof.
  intros E. unfold repl, resolve. rewrite E. by destruct (formats !! m).
Qed.

Ltac agree_norm :=
  repeat progress (
    cbn [negb orb andb mbind option_bind fmap option_fmap option_map list_fmap
         escape directives skeleton render escapable applyFuns modelled_map];
    rewrite ?Ascii.eqb_refl, ?isTable_percent, ?is19_percent, ?isTable_n,
      ?eqb_n_percent, ?app_String, ?app_empty_l, ?repl_percent,
      ?doPrintf_percent, ?doPrintf_s;
    scan_hyps).

(** On an escapable template [Sprintf] puts the operands into the skeleton
    exactly as [Format] renders the template. *)
Lemma Sprintf_skeleton t s args out :
  escapable s = true →
  applyFuns (resolve <$> directives s) t = Some args →
  render t s = Some out →
  fmt.doPrintf 0 (skeleton (escape s)) args = fmt.Known out.
Proof.
  revert args out. induction s as [s IH] using string_length_ind.
  intros args out.
  destruct s as [|p rest].
  { cbn. by intros _ [= <-] [= <-]. }
  destruct (Ascii.eqb_spec p "%") as [->|Hp].
  2: { agree_norm. intros He Ha Ho.
       destruct (render t rest) as [o|] eqn:Hr; [|done].
       injection Ho as <-. rewrite doPrintf_literal by done.
       by rewrite (IH rest ltac:(cbn [String.length]; lia) args o). }
  destruct rest as [|c r]; [by agree_norm|].
  destruct (Ascii.eqb_spec c "%") as [->|Hc].
  { agree_norm. intros He Ha Ho.
    destruct (render t r) as [o|] eqn:Hr; [|done].
    injection Ho as <-.
    by rewrite (IH r ltac:(cbn [String.length]; lia) args o). }
  destruct (isTable c) eqn:Et.
  { agree_norm. intros He.
    rewrite repl_resolve by (rewrite eqb_two_percent; by scan_hyps).
    destruct (resolve _ t) as [v|]; [|done].
    destruct (applyFuns _ t) as [vs|] eqn:Hvs; [|done].
    destruct (render t r) as [o|] eqn:Hr; [|done].
    intros [= <-] [= <-]. agree_norm.
    by rewrite (IH r ltac:(cbn [String.length]; lia) vs o). }
  destruct (is19 c) eqn:E19.
  2: { agree_norm. intros He Ha Ho.
       destruct (render t r) as [o|] eqn:Hr; [|done].
       injection Ho as <-. rewrite doPrintf_literal by done.
       by rewrite (IH r ltac:(cbn [String.length]; lia) args o). }
  destruct r as [|x r']; [by agree_norm|].
  destruct (Ascii.eqb_spec x "n") as [->|Hx].
  { agree_norm. intros He.
    rewrite repl_resolve by apply eqb_three_percent.
    destruct (resolve _ t) as [v|]; [|done].
    destruct (applyFuns _ t) as [vs|] eqn:Hvs; [|done].
    destruct (render t r') as [o|] eqn:Hr; [|done].
    intros [= <-] [= <-]. agree_norm.
    by rewrite (IH r' ltac:(cbn [String.length]; lia) vs o). }
  destruct (Ascii.eqb_spec x "%") as [->|Hx'].
  { agree_norm. done. }
  agree_norm. intros He Ha Ho.
  destruct (render t r') as [o|] eqn:Hr; [|done].
  injection Ho as <-. rewrite !doPrintf_literal by done.
  by rewrite (IH r' ltac:(cbn [String.length]; lia) args o).
Qed.

(** On an escapable template the compiled path renders what the one-shot
    path renders. *)
Theorem paths_agree_on_escapable (template : string) (t : Time) :
  escapable template = true →
  ∃ out,
    Format template t = Some out
    ∧ compiledFormat template t = Some (fmt.Known out).
Proof.
  intros He. destruct (Format_total template t) as [out Hout].
  exists out. split; [done|].
  unfold compiledFormat, NewFormatter. rewrite NewFormatter_scan_spec.
  unfold Formatter_Format. cbn [formatFunc strFormat].
  destruct (applyFuns_Some (resolve <$> directives template) t)
    as (args & Hargs & _).
  { apply Forall_fmap. apply directives_resolve. }
  rewrite Hargs. f_equal. unfold fmt.Sprintf.
  apply (Sprintf_skeleton t); [done..|]. by rewrite <- Format_render.
Qed.

Lemma paths_agree_on_escapable_witness :
  ∃ out,
    Format "%Y-%m-%d %H:%M:%S.%6n %% %g %3x" testTime = Some out
    ∧ compiledFormat "%Y-%m-%d %H:%M:%S.%6n %% %g %3x" testTime
      = Some (fmt.Known out).
Proof.
  apply (paths_agree_on_escapable "%Y-%m-%d %H:%M:%S.%6n %% %g %3x" testTime).
  reflexivity.
Defined.

Lemma countVerb_literal c X :
  c ≠ "%"%char → fmt.countVerb "s" 0 (String c X) = fmt.countVerb "s" 0 X.
Proof.
  intros Hc. cbn [fmt.countVerb]. by rewrite (proj2 (Ascii.eqb_neq _ _) Hc).
Qed.

Lemma countVerb_percent X :
  fmt.countVerb "s" 0 (String "%" (String "%" X)) = fmt.countVerb "s" 0 X.
Proof. reflexivity. Qed.

Lemma countVerb_s X :
  fmt.countVerb "s" 0 (String "%" (String "s" X)) = S (fmt.countVerb "s" 0 X).
Proof. reflexivity. Qed.

Lemma countVerb_skeleton s :
  escapable s = true →
  fmt.countVerb "s" 0 (skeleton (escape s)) = length (directives s).
Proof.
  induction s as [s IH] using string_length_ind.
  destruct s as [|p rest]; [done|].
  destruct (Ascii.eqb_spec p "%") as [->|Hp].
  2: { agree_norm. rewrite countVerb_literal by done.
       intros. apply IH; [cbn; lia|done]. }
  destruct rest as [|c r]; [by agree_norm|].
  destruct (Ascii.eqb_spec c "%") as [->|Hc].
  { agree_norm. rewrite countVerb_percent. intros. apply IH; [cbn; lia|done]. }
  destruct (isTable c) eqn:Et.
  { agree_norm. rewrite countVerb_s. cbn [length]. intros. f_equal.
    apply IH; [cbn; lia|done]. }
  destruct (is19 c) eqn:E19.
  2: { agree_norm. rewrite countVerb_percent, countVerb_literal by done.
       intros. apply IH; [cbn; lia|done]. }
  destruct r as [|x r']; [by agree_norm|].
  destruct (Ascii.eqb_spec x "n") as [->|Hx].
  { agree_norm. rewrite countVerb_s. cbn [length]. intros. f_equal.
    apply IH; [cbn; lia|done]. }
  destruct (Ascii.eqb_spec x "%") as [->|Hx'].
  { by agree_norm. }
  agree_norm. rewrite countVerb_percent, !countVerb_literal by done.
  intros. apply IH; [cbn; lia|done].
Qed.

(** On an escapable template the skeleton has one [%s] verb for each
    function. *)
Theorem placeholders_escapable (template : string) :
  escapable template = true →
  ∃ self,
    NewFormatter template = Some self
    ∧ ∀ t, fmap length (formatFunc self t)
           = Some (placeholders (strFormat self)).
Proof.
  intros He. unfold NewFormatter. rewrite NewFormatter_scan_spec.
  eexists. split; [reflexivity|]. intros t. cbn [formatFunc strFormat].
  destruct (applyFuns_Some (resolve <$> directives template) t)
    as (args & -> & Hlen).
  { apply Forall_fmap. apply directives_resolve. }
  cbn [fmap option_fmap option_map]. f_equal.
  rewrite Hlen, length_fmap. unfold placeholders.
  by rewrite countVerb_skeleton.
Qed.

Lemma placeholders_escapable_witness :
  ∃ self,
    NewFormatter "%Y/%m %% %g" = Some self
    ∧ ∀ t, fmap length (formatFunc self t)
           = Some (placeholders (strFormat self)).
Proof. apply (placeholders_escapable "%Y/%m %% %g"). reflexivity. Defined.

(** ** [formatNano]: trimming and bounds *)

Lemma formatNano_fill_length start u buf :
  length (formatNano_fill start u buf) = length buf.
Proof.
  revert u buf. induction start as [|start IH]; intros u buf; [done|].
  cbn [formatNano_fill]. by rewrite IH, length_insert.
Qed.

(** The loop that trims stops behind the last byte that is not [0], and
    only zeros lie between that place and where it started. *)
Lemma formatNano_trim_spec n buf :
  (n ≤ length buf)%nat →
  (formatNano_trim n buf ≤ n)%nat
  ∧ take n buf
    = (take (formatNano_trim n buf) buf
       ++ replicate (n - formatNano_trim n buf) "0"%char)%list
  ∧ last (take (formatNano_trim n buf) buf) ≠ Some "0"%char.
Proof.
  induction n as [|n IH]; intros Hn.
  { cbn. by rewrite take_0. }
  cbn [formatNano_trim].
  destruct (lookup_lt_is_Some_2 buf n) as [c Hc]; [lia|]. rewrite Hc.
  destruct (Ascii.eqb_spec c "0") as [->|Hne].
  - destruct IH as (Hle & Htake & Hlast); [lia|].
    split; [lia|]. split; [|done].
    rewrite (take_S_r _ _ _ Hc), Htake, <- app_assoc. f_equal.
    replace (S n - formatNano_trim n buf)%nat
      with (S (n - formatNano_trim n buf)) by lia.
    by rewrite replicate_S_end.
  - split; [lia|]. rewrite Nat.sub_diag, app_nil_r. split; [done|].
    rewrite (take_S_r _ _ _ Hc), last_snoc. by intros [= ->].
Qed.

(** With [trim], [formatNano] returns the untrimmed result without its
    trailing zeros: the untrimmed result is the trimmed one followed by
    zeros only, and the trimmed one does not end in a zero (it is empty when
    all requested digits are zero). *)
Theorem formatNano_trim_zeros (nanosec n : Z) :
  0 ≤ n →
  ∃ trimmed k,
    formatNano nanosec n true = Some trimmed
    ∧ formatNano nanosec n false = Some (trimmed ++ replicate k "0"%char)%list
    ∧ last trimmed ≠ Some "0"%char.
Proof.
  intros Hn. unfold formatNano. cbv zeta.
  set (buf := formatNano_fill 9 nanosec (replicate 9 "000"%char)).
  set (m := if n >? 9 then 9 else n).
  assert (0 ≤ m ≤ 9) as Hm by (unfold m; destruct (n >? 9) eqn:E; lia).
  destruct (m <? 0) eqn:E; [lia|].
  assert (length buf = 9%nat) as Hlen.
  { unfold buf. by rewrite formatNano_fill_length, length_replicate. }
  destruct (formatNano_trim_spec (Z.to_nat m) buf) as (Hle & Htake & Hlast);
    [lia|].
  eexists _, _. split; [reflexivity|]. split; [|done]. by rewrite <- Htake.
Qed.

Lemma formatNano_trim_zeros_witness :
  ∃ trimmed k,
    formatNano 120500000 6 true = Some trimmed
    ∧ formatNano 120500000 6 false = Some (trimmed ++ replicate k "0"%char)%list
    ∧ last trimmed ≠ Some "0"%char.
Proof. apply (formatNano_trim_zeros 120500000 6). lia. Defined.

(** ** The two versions of the package agree *)

(** Two scans that find the same matches and replace them alike give the
    same text. *)
Lemma replaceAll_go_ext {St : Type} (re1 re2 : Regexp)
    (f1 f2 : string → St → option (string * St)) :
  (∀ s, matchAt re1 s = matchAt re2 s) →
  (∀ s k st, matchAt re2 s = Some (S k) →
             f1 (GoString.take (S k) s) st = f2 (GoString.take (S k) s) st) →
  ∀ s skip st,
    replaceAll_go re1 f1 skip s st = replaceAll_go re2 f2 skip s st.
Proof.
  intros Hm Hf. induction s as [|c s IH]; intros skip st; [done|].
  cbn [replaceAll_go]. destruct skip as [|k]; [|apply IH].
  rewrite Hm. destruct (matchAt re2 (String c s)) as [[|k]|] eqn:E.
  - by rewrite IH.
  - rewrite (Hf _ _ st E).
    destruct (f2 _ st) as [[out st']|]; [|done]. by rewrite IH.
  - by rewrite IH.
Qed.

(** The literal character class of strftime.go holds [%] and the keys of
    [formats]. *)
Lemma inClass_literal c :
  inClass (list_ascii_of_string "%aAbBcdHIjmMpSUwWxXyYZ") [] c
  = Ascii.eqb c "%" || isTable c.
Proof.
  unfold isTable. rewrite formatsClass_eq.
  destruct c as [[] [] [] [] [] [] [] []]; reflexivity.
Qed.

Lemma matchAt_strftime_go s : matchAt strftime_go.fmtRe s = matchAt fmtRe s.
Proof.
  rewrite matchAt_fmtRe.
  unfold matchAt, strftime_go.fmtRe, fmtRe_len.
  destruct s as [|p [|c r]]; cbn [matchLens].
  - done.
  - rewrite Ascii.eqb_sym. by destruct (Ascii.eqb p "%").
  - rewrite (Ascii.eqb_sym "%"%char p).
    destruct (Ascii.eqb p "%"); [|done].
    cbn [mbind list_bind mjoin fmap list_fmap app GoString.drop matchLens xorb].
    rewrite inClass_literal, inClass_19.
    destruct (Ascii.eqb c "%" || isTable c); [done|].
    destruct (is19 c); [|done].
    cbn [mbind list_bind fmap list_fmap app GoString.drop matchLens].
    destruct r as [|x r]; [done|].
    rewrite (Ascii.eqb_sym "n"%char x). by destruct (Ascii.eqb x "n").
Qed.

Lemma conv_lookup_Some k layout :
  strftime_go.conv !! k = Some layout → ∃ c, k = String "%" (String c "").
Proof.
  unfold strftime_go.conv. intros H%elem_of_list_to_map_2.
  repeat (apply elem_of_cons in H as [[= -> ->]|H]; [by eexists|]).
  by apply elem_of_nil in H.
Qed.

(** On a directive of the table the switch and the table give the same
    text. *)
Lemma repl_strftime_go_table c t :
  isTable c = true →
  strftime_go.repl (String "%" (String c "")) t
  = repl (String "%" (String c "")) t.
Proof.
  intros H%isTable_cases. simpl in H.
  repeat (destruct H as [<-|H]; [reflexivity|]).
  done.
Qed.

Lemma repl_strftime_go_nano d t :
  is19 d = true →
  strftime_go.repl (String "%" (String d "n")) t
  = repl (String "%" (String d "n")) t.
Proof.
  intros H19. rewrite repl_nano by done.
  unfold strftime_go.repl. rewrite eqb_three_percent.
  destruct (strftime_go.conv !! _) as [layout|] eqn:Hl.
  { by destruct (conv_lookup_Some _ _ Hl) as (c' & [=]). }
  assert (∀ x, String.eqb (String "%" (String d "n")) (String "%" (String x ""))
               = false) as E.
  { intros x. cbn [String.eqb]. rewrite Ascii.eqb_refl.
    destruct (Ascii.eqb d x); [|done]. by destruct (Ascii.eqb "n" x). }
  by rewrite !E.
Qed.

(** strftime.go and the version with the table of functions expand every
    template alike: the hand-written character class matches what the
    class built from the keys of [formats] matches, and the switch of
    [repl] gives what the functions of [formats] give. *)
Theorem Format_strftime_go (template : string) (t : Time) :
  strftime_go.Format template t = Format template t.
Proof.
  unfold strftime_go.Format, Format, ReplaceAllStringFunc. cbv zeta.
  f_equal. apply replaceAll_go_ext; [apply matchAt_strftime_go|].
  intros s k [] Hs. rewrite matchAt_fmtRe in Hs.
  pose proof (fmtRe_len_cases s) as Hc. rewrite Hs in Hc.
  destruct Hc as [[Hk (c & r & -> & Hc)]|[Hk (d & r & -> & Hd & H19)]];
    injection Hk as Hk; subst k; cbn [GoString.take].
  - destruct (Ascii.eqb_spec c "%") as [->|Hne]; [done|].
    cbn [orb] in Hc. by rewrite repl_strftime_go_table.
  - by rewrite repl_strftime_go_nano.
Qed.

(** ** The week number in closed form *)

Lemma WEEK_eq : WEEK = 604800000000000.
Proof. reflexivity. Qed.

(** The loop adds one for every started week between [start] and [t]. *)
Lemma weekLoop_closed t start week :
  weekLoop t start week
  = week + Z.max 0 ((unixNano t - unixNano start + WEEK - 1) / WEEK).
Proof.
  funelim (weekLoop t start week).
  - match goal with IH : _ = _ + 1 + _ |- _ => rewrite IH end.
    assert (unixNano start < unixNano t) by (by apply Z.ltb_lt).
    cbn [Time_Add unixNano]. rewrite WEEK_eq.
    Z.div_mod_to_equations. lia.
  - assert (unixNano t ≤ unixNano start) by (by apply Z.ltb_ge).
    rewrite WEEK_eq. Z.div_mod_to_equations. lia.
Qed.

(** [%U] and [%W] print the number of weeks that have started since
    1 January 23:00:00 UTC of the year of [t]: the time since then, divided
    by seven days and rounded up, and 0 before that instant. *)
Theorem week_number_closed_form (t : Time) :
  weekNumberFormatter t
  = Sprintf_d 2
      (Z.max 0 ((unixNano t - unixNano (weekStart t) + WEEK - 1) / WEEK)).
Proof.
  unfold weekNumberFormatter. cbv zeta. fold (weekStart t).
  by rewrite weekLoop_closed.
Qed.

(** The year that [civilFromDays] gives a day holds that day. *)
Lemma civil_year_bounds z :
  daysFromCivil (civilFromDays z).1.1 1 1 ≤ z
  < daysFromCivil (civilFromDays z).1.1 1 1 + 366.
Proof.
  unfold civilFromDays, daysFromCivil. cbv zeta.
  change (1 <=? 2) with true. change (1 >? 2) with false. cbv iota.
  pose proof (Z.div_mod (z + 719468) 146097 ltac:(lia)) as Hz.
  pose proof (Z.mod_pos_bound (z + 719468) 146097 ltac:(lia)) as Hdoe.
  replace (z + 719468 - (z + 719468) / 146097 * 146097)
    with ((z + 719468) mod 146097) by lia.
  generalize dependent ((z + 719468) mod 146097). intros doe Hz Hdoe.
  generalize dependent ((z + 719468) / 146097). intros era Hz.
  assert (z = 146097 * era + doe - 719468) as -> by lia. clear Hz.
  set (yoe := (doe - doe / 1460 + doe / 36524 - doe / 146096) / 365).
  set (doy := doe - (365 * yoe + yoe / 4 - yoe / 100)).
  set (mp := (5 * doy + 2) / 153).
  assert (0 ≤ yoe ≤ 399 ∧ 0 ≤ doy ≤ 365) as Hy.
  { unfold doy, yoe. Z.div_mod_to_equations; lia. }
  assert (0 ≤ mp ≤ 11 ∧ (mp < 10 ↔ doy < 306)) as Hmp.
  { unfold mp. Z.div_mod_to_equations; lia. }
  cbn [fst].
  destruct (mp <? 10) eqn:Emp.
  - replace (mp + 3 <=? 2) with false by lia.
    assert (doy < 306) as Hd by lia.
    unfold doy, yoe in *; clear mp Hmp Emp; Z.div_mod_to_equations; lia.
  - replace (mp - 9 <=? 2) with true by lia.
    assert (306 ≤ doy) as Hd by lia.
    unfold doy, yoe in *; clear mp Hmp Emp; Z.div_mod_to_equations; lia.
Qed.

Lemma weekStart_unixNano t :
  unixNano (weekStart t)
  = (daysFromCivil (Time_Year t) 1 1 * 86400 + 82800) * Second.
Proof.
  unfold weekStart, Date, January, UTC. cbv zeta. cbn [unixNano zoneOffset].
  change (1 - 1) with 0. change (0 / 12) with 0. change (0 mod 12 + 1) with 1.
  rewrite (Z.add_0_r (Time_Year t)). unfold Second. lia.
Qed.

(** For an instant whose zone is less than a day west of UTC, [%U] and
    [%W] print a number between 0 and 53, in exactly two digits. *)
Theorem week_number_range (t : Time) :
  -86400 ≤ zoneOffset (loc t) →
  ∃ w, 0 ≤ w ≤ 53 ∧ weekNumberFormatter t = twoDigits w.
Proof.
  intros Hoff. unfold weekNumberFormatter. cbv zeta. fold (weekStart t).
  rewrite weekLoop_closed, Z.add_0_l.
  set (w := Z.max 0 _).
  assert (0 ≤ w ≤ 53) as Hw.
  { unfold w. rewrite weekStart_unixNano.
    pose proof (civil_year_bounds (localSec t / 86400)) as Hy.
    fold (Time_Year t) in Hy. unfold localSec in Hy.
    generalize dependent (daysFromCivil (Time_Year t) 1 1). intros D Hy.
    rewrite WEEK_eq. unfold Second in *.
    Z.div_mod_to_equations. lia. }
  exists w. split; [done|]. apply Sprintf_d_two_digits. lia.
Qed.

Lemma week_number_range_witness :
  ∃ w, 0 ≤ w ≤ 53 ∧ weekNumberFormatter testTime = twoDigits w.
Proof. apply (week_number_range testTime). vm_compute. discriminate. Defined.

(** ** Text without directives *)

Lemma plain_scans s t :
  forallb (λ c, negb (Ascii.eqb c "%")) (list_ascii_of_string s) = true →
  escapable s = true ∧ render t s = Some s.
Proof.
  induction s as [|p rest IH]; [done|].
  cbn [list_ascii_of_string forallb]. intros [Hp Hrest]%andb_true_iff.
  destruct (IH Hrest) as [He Hr].
  cbn [escapable render]. by rewrite Hp, Hr.
Qed.

(** A template without [%] comes back unchanged from both paths, for every
    timestamp. *)
Theorem plain_text_unchanged (template : string) (t : Time) :
  forallb (λ c, negb (Ascii.eqb c "%")) (list_ascii_of_string template)
  = true →
  Format template t = Some template
  ∧ compiledFormat template t = Some (fmt.Known template).
Proof.
  intros Hplain. destruct (plain_scans template t Hplain) as [He Hr].
  split; [by rewrite Format_render|].
  unfold compiledFormat, NewFormatter. rewrite NewFormatter_scan_spec.
  unfold Formatter_Format. cbn [formatFunc strFormat].
  destruct (applyFuns_Some (resolve <$> directives template) t)
    as (args & Hargs & _).
  { apply Forall_fmap. apply directives_resolve. }
  rewrite Hargs. f_equal. unfold fmt.Sprintf.
  by apply (Sprintf_skeleton t).
Qed.

Lemma plain_text_unchanged_witness :
  Format "2009-11-10 log.txt" testTime = Some "2009-11-10 log.txt"
  ∧ compiledFormat "2009-11-10 log.txt" testTime
    = Some (fmt.Known "2009-11-10 log.txt").
Proof. apply (plain_text_unchanged "2009-11-10 log.txt" testTime). reflexivity. Defined.

(** ** The directives of the table, for every instant *)

Lemma repl_lookup c f t :
  formats !! String "%" (String c "") = Some f →
  repl (String "%" (String c "")) t = f t.
Proof.
  intros Hf. destruct (formats_lookup_Some _ _ Hf) as (c' & [= <-] & Hc & _).
  unfold repl. rewrite eqb_two_percent, Hf.
  destruct (Ascii.eqb_spec c "%") as [->|]; [|done].
  by rewrite isTable_percent in Hc.
Qed.

Lemma render_table c r t f v :
  isTable c = true →
  formats !! String "%" (String c "") = Some f →
  f t = Some v →
  render t (String "%" (String c r)) = String.append v <$> render t r.
Proof.
  intros Hc Hf Hv. cbn [render]. rewrite Ascii.eqb_refl, Hc, orb_true_r.
  cbn [negb]. rewrite (repl_lookup _ _ _ Hf), Hv. cbn [mbind option_bind].
  by destruct (render t r).
Qed.

Lemma render_literal p rest t :
  Ascii.eqb p "%" = false →
  render t (String p rest) = String p <$> render t rest.
Proof. intros Hp. cbn [render]. by rewrite Hp. Qed.

Lemma render_nil t : render t "" = Some "".
Proof. reflexivity. Qed.

Lemma fmap_Some_eq {A B} (f : A → B) (x : A) : f <$> Some x = Some (f x).
Proof. reflexivity. Qed.

(** The entries of [formats] that the layouts of [time.Format] render. *)
Lemma formats_a :
  formats !! "%a" = Some (λ t, Some (Time_Format t "Mon")).
Proof. exact eq_refl. Qed.
Lemma formats_b :
  formats !! "%b" = Some (λ t, Some (Time_Format t "Jan")).
Proof. exact eq_refl. Qed.
Lemma formats_c :
  formats !! "%c" = Some (λ t, Some (Time_Format t RFC1123)).
Proof. exact eq_refl. Qed.
Lemma formats_d :
  formats !! "%d" = Some (λ t, Some (Time_Format t "02")).
Proof. exact eq_refl. Qed.
Lemma formats_H :
  formats !! "%H" = Some (λ t, Some (Time_Format t "15")).
Proof. exact eq_refl. Qed.
Lemma formats_I :
  formats !! "%I" = Some (λ t, Some (Time_Format t "3")).
Proof. exact eq_refl. Qed.
Lemma formats_m :
  formats !! "%m" = Some (λ t, Some (Time_Format t "01")).
Proof. exact eq_refl. Qed.
Lemma formats_M :
  formats !! "%M" = Some (λ t, Some (Time_Format t "04")).
Proof. exact eq_refl. Qed.
Lemma formats_p :
  formats !! "%p" = Some (λ t, Some (Time_Format t "PM")).
Proof. exact eq_refl. Qed.
Lemma formats_S :
  formats !! "%S" = Some (λ t, Some (Time_Format t "05")).
Proof. exact eq_refl. Qed.
Lemma formats_w :
  formats !! "%w" = Some (λ t, Some (Sprintf_d 0 (Time_Weekday t))).
Proof. exact eq_refl. Qed.
Lemma formats_x :
  formats !! "%x" = Some (λ t, Some (Time_Format t "01/02/06")).
Proof. exact eq_refl. Qed.
Lemma formats_X :
  formats !! "%X" = Some (λ t, Some (Time_Format t "15:04:05")).
Proof. exact eq_refl. Qed.
Lemma formats_y :
  formats !! "%y" = Some (λ t, Some (Time_Format t "06")).
Proof. exact eq_refl. Qed.
Lemma formats_Y :
  formats !! "%Y" = Some (λ t, Some (Time_Format t "2006")).
Proof. exact eq_refl. Qed.
Lemma formats_Z :
  formats !! "%Z" = Some (λ t, Some (Time_Format t "MST")).
Proof. exact eq_refl. Qed.

Lemma isTable_intro c :
  inClass (list_ascii_of_string "wWScmMUyYIaAZjbBdxXHp") [] c = true →
  isTable c = true.
Proof. unfold isTable. by rewrite formatsClass_eq. Qed.

Ltac is_table := apply isTable_intro; reflexivity.

(** One step of [render] on a template whose head is known. *)
Ltac table_step c r t :=
  lazymatch c with
  | "a"%char => rewrite (render_table c r t _ _ ltac:(is_table) formats_a eq_refl)
  | "b"%char => rewrite (render_table c r t _ _ ltac:(is_table) formats_b eq_refl)
  | "c"%char => rewrite (render_table c r t _ _ ltac:(is_table) formats_c eq_refl)
  | "d"%char => rewrite (render_table c r t _ _ ltac:(is_table) formats_d eq_refl)
  | "H"%char => rewrite (render_table c r t _ _ ltac:(is_table) formats_H eq_refl)
  | "m"%char => rewrite (render_table c r t _ _ ltac:(is_table) formats_m eq_refl)
  | "M"%char => rewrite (render_table c r t _ _ ltac:(is_table) formats_M eq_refl)
  | "S"%char => rewrite (render_table c r t _ _ ltac:(is_table) formats_S eq_refl)
  | "x"%char => rewrite (render_table c r t _ _ ltac:(is_table) formats_x eq_refl)
  | "X"%char => rewrite (render_table c r t _ _ ltac:(is_table) formats_X eq_refl)
  | "y"%char => rewrite (render_table c r t _ _ ltac:(is_table) formats_y eq_refl)
  | "Y"%char => rewrite (render_table c r t _ _ ltac:(is_table) formats_Y eq_refl)
  | "Z"%char => rewrite (render_table c r t _ _ ltac:(is_table) formats_Z eq_refl)
  end.

Ltac render_step :=
  match goal with
  | |- context [render ?t (String "%" (String ?c ?r))] => table_step c r t
  | |- context [render ?t (String ?p ?rest)] =>
      rewrite (render_literal p rest t) by reflexivity
  | |- context [render ?t ""] => rewrite (render_nil t)
  | |- context [_ <$> Some _] => rewrite fmap_Some_eq
  end.

(** The layouts of the table, element by element. *)
Lemma layout_one (s : std) (layout : string) t :
  Time_Format t layout = formatStd s t +:+ "" →
  Time_Format t layout = formatStd s t.
Proof. by rewrite app_empty_r. Qed.

Lemma layout_15 t : Time_Format t "15" = formatStd stdHour t.
Proof. by apply layout_one. Qed.
Lemma layout_04 t : Time_Format t "04" = formatStd stdZeroMinute t.
Proof. by apply layout_one. Qed.
Lemma layout_05 t : Time_Format t "05" = formatStd stdZeroSecond t.
Proof. by apply layout_one. Qed.
Lemma layout_01 t : Time_Format t "01" = formatStd stdZeroMonth t.
Proof. by apply layout_one. Qed.
Lemma layout_02 t : Time_Format t "02" = formatStd stdZeroDay t.
Proof. by apply layout_one. Qed.
Lemma layout_06 t : Time_Format t "06" = formatStd stdYear t.
Proof. by apply layout_one. Qed.
Lemma layout_3 t : Time_Format t "3" = formatStd stdHour12 t.
Proof. by apply layout_one. Qed.
Lemma layout_2006 t : Time_Format t "2006" = formatStd stdLongYear t.
Proof. by apply layout_one. Qed.
Lemma layout_Mon t : Time_Format t "Mon" = formatStd stdWeekDay t.
Proof. by apply layout_one. Qed.
Lemma layout_Jan t : Time_Format t "Jan" = formatStd stdMonth t.
Proof. by apply layout_one. Qed.
Lemma layout_MST t : Time_Format t "MST" = formatStd stdTZ t.
Proof. by apply layout_one. Qed.
Lemma layout_PM t : Time_Format t "PM" = formatStd stdPM t.
Proof. by apply layout_one. Qed.

Lemma layout_15_04_05 t :
  Time_Format t "15:04:05"
  = formatStd stdHour t +:+ ":" +:+ formatStd stdZeroMinute t +:+ ":"
    +:+ formatStd stdZeroSecond t.
Proof.
  transitivity
    (formatStd stdHour t +:+ ":" +:+ formatStd stdZeroMinute t +:+ ":"
     +:+ formatStd stdZeroSecond t +:+ ""); [reflexivity|].
  by rewrite app_empty_r.
Qed.

Lemma layout_01_02_06 t :
  Time_Format t "01/02/06"
  = formatStd stdZeroMonth t +:+ "/" +:+ formatStd stdZeroDay t +:+ "/"
    +:+ formatStd stdYear t.
Proof.
  transitivity
    (formatStd stdZeroMonth t +:+ "/" +:+ formatStd stdZeroDay t +:+ "/"
     +:+ formatStd stdYear t +:+ ""); [reflexivity|].
  by rewrite app_empty_r.
Qed.

Lemma layout_RFC1123 t :
  Time_Format t RFC1123
  = formatStd stdWeekDay t +:+ ", " +:+ formatStd stdZeroDay t +:+ " "
    +:+ formatStd stdMonth t +:+ " " +:+ formatStd stdLongYear t +:+ " "
    +:+ formatStd stdHour t +:+ ":" +:+ formatStd stdZeroMinute t +:+ ":"
    +:+ formatStd stdZeroSecond t +:+ " " +:+ formatStd stdTZ t.
Proof.
  transitivity
    (formatStd stdWeekDay t +:+ ", " +:+ formatStd stdZeroDay t +:+ " "
     +:+ formatStd stdMonth t +:+ " " +:+ formatStd stdLongYear t +:+ " "
     +:+ formatStd stdHour t +:+ ":" +:+ formatStd stdZeroMinute t +:+ ":"
     +:+ formatStd stdZeroSecond t +:+ " " +:+ formatStd stdTZ t +:+ "");
    [reflexivity|].
  by rewrite app_empty_r.
Qed.

(** [%X], [%x] and [%c] render what their parts render: [%X] is
    [%H:%M:%S], [%x] is [%m/%d/%y], and [%c] is
    [%a, %d %b %Y %H:%M:%S %Z]. *)
Theorem composite_directives (t : Time) :
  Format "%X" t = Format "%H:%M:%S" t
  ∧ Format "%x" t = Format "%m/%d/%y" t
  ∧ Format "%c" t = Format "%a, %d %b %Y %H:%M:%S %Z" t.
Proof.
  rewrite !Format_render. repeat split; repeat render_step.
  - rewrite layout_15_04_05, layout_15, layout_04, layout_05.
    by rewrite !app_empty_r.
  - rewrite layout_01_02_06, layout_01, layout_02, layout_06.
    by rewrite !app_empty_r.
  - rewrite layout_RFC1123, layout_Mon, layout_02, layout_Jan, layout_2006,
      layout_15, layout_04, layout_05, layout_MST.
    by rewrite !app_empty_r.
Qed.

Lemma Format_lookup c f t :
  formats !! String "%" (String c "") = Some f →
  Format (String "%" (String c "")) t = f t.
Proof.
  intros Hf. destruct (formats_lookup_Some _ _ Hf) as (c' & [= <-] & Hc & _).
  rewrite Format_one_two by (by rewrite Hc, orb_true_r).
  by apply repl_lookup.
Qed.

Lemma appendInt_two_digits x : 0 ≤ x ≤ 99 → appendInt x 2 = twoDigits x.
Proof.
  intros Hx.
  assert (forallb (λ n, String.eqb (appendInt (Z.of_nat n) 2)
                                   (twoDigits (Z.of_nat n)))
                  (seq 0 100) = true) as H by (vm_compute; reflexivity).
  rewrite forallb_forall in H.
  specialize (H (Z.to_nat x)). rewrite Z2Nat.id in H by lia.
  apply String.eqb_eq, H, in_seq. lia.
Qed.

Lemma appendInt_unpadded x :
  0 ≤ x ≤ 99 →
  appendInt x 0 = if x <? 10 then oneDigit x else twoDigits x.
Proof.
  intros Hx.
  assert (forallb (λ n, String.eqb (appendInt (Z.of_nat n) 0)
                          (if Z.of_nat n <? 10 then oneDigit (Z.of_nat n)
                           else twoDigits (Z.of_nat n)))
                  (seq 0 100) = true) as H by (vm_compute; reflexivity).
  rewrite forallb_forall in H.
  specialize (H (Z.to_nat x)). rewrite Z2Nat.id in H by lia.
  apply String.eqb_eq, H, in_seq. lia.
Qed.

Lemma Sprintf_d_unpadded x :
  0 ≤ x ≤ 9 → Sprintf_d 0 x = oneDigit x.
Proof.
  intros Hx.
  assert (forallb (λ n, String.eqb (Sprintf_d 0 (Z.of_nat n))
                                   (oneDigit (Z.of_nat n)))
                  (seq 0 10) = true) as H by (vm_compute; reflexivity).
  rewrite forallb_forall in H.
  specialize (H (Z.to_nat x)). rewrite Z2Nat.id in H by lia.
  apply String.eqb_eq, H, in_seq. lia.
Qed.

(** The day and the month that [civilFromDays] gives are a day and a month
    of the calendar. *)
Lemma civil_month_day_bounds z :
  1 ≤ (civilFromDays z).1.2 ≤ 12 ∧ 1 ≤ (civilFromDays z).2 ≤ 31.
Proof.
  unfold civilFromDays. cbv zeta. cbn [fst snd].
  pose proof (Z.div_mod (z + 719468) 146097 ltac:(lia)) as Hz.
  pose proof (Z.mod_pos_bound (z + 719468) 146097 ltac:(lia)) as Hdoe.
  replace (z + 719468 - (z + 719468) / 146097 * 146097)
    with ((z + 719468) mod 146097) by lia.
  generalize dependent ((z + 719468) mod 146097). intros doe _ Hdoe.
  set (yoe := (doe - doe / 1460 + doe / 36524 - doe / 146096) / 365).
  set (doy := doe - (365 * yoe + yoe / 4 - yoe / 100)).
  assert (0 ≤ doy ≤ 365) as Hy.
  { unfold doy, yoe. Z.div_mod_to_equations; lia. }
  clearbody doy. clear yoe doe Hdoe.
  set (mp := (5 * doy + 2) / 153).
  assert (0 ≤ mp ≤ 11) as Hmp by (unfold mp; Z.div_mod_to_equations; lia).
  split.
  - destruct (mp <? 10) eqn:E; lia.
  - unfold mp. Z.div_mod_to_equations; lia.
Qed.

(** What the fields of the clock and of the calendar render to, for every
    instant: [%H], [%M], [%S], [%d], [%m] and [%y] are two digits, zero
    padded, of a number in the range of the field; [%w] is one digit,
    0 to 6; [%I] is the hour of the 12-hour clock, 1 to 12, without
    padding; [%p] is [AM] before noon and [PM] from noon on. *)
Theorem clock_and_calendar_directives (t : Time) :
  (Format "%H" t = Some (twoDigits (Time_Hour t)) ∧ 0 ≤ Time_Hour t ≤ 23)
  ∧ (Format "%M" t = Some (twoDigits (Time_Minute t))
     ∧ 0 ≤ Time_Minute t ≤ 59)
  ∧ (Format "%S" t = Some (twoDigits (Time_Second t))
     ∧ 0 ≤ Time_Second t ≤ 59)
  ∧ (Format "%d" t = Some (twoDigits (Time_Day t)) ∧ 1 ≤ Time_Day t ≤ 31)
  ∧ (Format "%m" t = Some (twoDigits (Time_Month t))
     ∧ 1 ≤ Time_Month t ≤ 12)
  ∧ Format "%y" t = Some (twoDigits (Z.abs (Time_Year t) mod 100))
  ∧ (Format "%w" t = Some (oneDigit (Time_Weekday t))
     ∧ 0 ≤ Time_Weekday t ≤ 6)
  ∧ (Format "%I" t
     = Some (if hour12 t <? 10 then oneDigit (hour12 t)
             else twoDigits (hour12 t))
     ∧ 1 ≤ hour12 t ≤ 12)
  ∧ Format "%p" t = Some (if Time_Hour t <? 12 then "AM" else "PM").
Proof.
  assert (0 ≤ Time_Hour t ≤ 23) as HH.
  { unfold Time_Hour. Z.div_mod_to_equations; lia. }
  assert (0 ≤ Time_Minute t ≤ 59) as HM.
  { unfold Time_Minute. Z.div_mod_to_equations; lia. }
  assert (0 ≤ Time_Second t ≤ 59) as HS.
  { unfold Time_Second. Z.div_mod_to_equations; lia. }
  destruct (civil_month_day_bounds (localSec t / 86400)) as [Hm Hd].
  fold (Time_Month t) in Hm. fold (Time_Day t) in Hd.
  assert (0 ≤ Time_Weekday t ≤ 6) as Hw.
  { unfold Time_Weekday. Z.div_mod_to_equations; lia. }
  assert (1 ≤ hour12 t ≤ 12) as HI.
  { unfold hour12. cbv zeta. destruct (_ =? 0) eqn:E; [lia|].
    Z.div_mod_to_equations; lia. }
  repeat split; try lia.
  - rewrite (Format_lookup _ _ t formats_H), layout_15.
    cbn [formatStd]. by rewrite appendInt_two_digits by lia.
  - rewrite (Format_lookup _ _ t formats_M), layout_04.
    cbn [formatStd]. by rewrite appendInt_two_digits by lia.
  - rewrite (Format_lookup _ _ t formats_S), layout_05.
    cbn [formatStd]. by rewrite appendInt_two_digits by lia.
  - rewrite (Format_lookup _ _ t formats_d), layout_02.
    cbn [formatStd]. by rewrite appendInt_two_digits by lia.
  - rewrite (Format_lookup _ _ t formats_m), layout_01.
    cbn [formatStd]. by rewrite appendInt_two_digits by lia.
  - rewrite (Format_lookup _ _ t formats_y), layout_06.
    cbn [formatStd]. rewrite Z.rem_mod_nonneg by lia.
    rewrite appendInt_two_digits; [done|]. Z.div_mod_to_equations; lia.
  - rewrite (Format_lookup _ _ t formats_w).
    by rewrite Sprintf_d_unpadded by lia.
  - rewrite (Format_lookup _ _ t formats_I), layout_3.
    cbn [formatStd]. fold (hour12 t). by rewrite appendInt_unpadded by lia.
  - rewrite (Format_lookup _ _ t formats_p), layout_PM.
    cbn [formatStd]. by destruct (Time_Hour t >=? 12) eqn:E1,
      (Time_Hour t <? 12) eqn:E2; try lia.
Qed.
